(** * friendlysam.optimization.solvers: the Pyomo adapter

    A shallow embedding of [friendlysam/optimization/solvers.py]:
    solver resolution ([get_solver]), variable binding ([_add_var]),
    polynomial and relation translation ([_make_pyomo_poly],
    [_make_pyomo_relation]), constraint dispatch ([_add_constraint]) and
    the orchestration of one solve ([PyomoSolver.solve]).

    Python floats are idealised as exact rationals ([Q], compared with
    [==]); sympy and Pyomo are libraries the module calls, so the parts of
    them the module relies on are modelled in [Module Sympy] and
    [Module Pyomo]. *)

From Stdlib Require Import QArith Qabs Lqa.
From stdpp Require Import gmap strings list fin_maps sorting pretty.

(** ** sympy: expressions, symbols and polynomials *)

Module Sympy.

#[local] Open Scope Q_scope.

(** The fragment of sympy expressions the translation is studied on:
    numbers, symbols, sums, products, natural powers, and [Abs] as the
    representative operator that is not polynomial in its argument.
    [a - b] is the sum of [a] and [-1 * b], as sympy builds it; sympy also
    collects like terms while it builds a sum, which is not modelled: it
    leaves the value unchanged and can only remove symbols, so the
    statements about relations ask for the symbols of both sides to be
    bound. *)
Inductive Expr : Type :=
  | Num (q : Q)
  | Symbol (name : string)
  | Add (a b : Expr)
  | Mul (a b : Expr)
  | Pow (a : Expr) (n : nat)
  | Abs (a : Expr).

Definition Sub (a b : Expr) : Expr := Add a (Mul (Num (-1)) b).

Fixpoint qpow (x : Q) (n : nat) : Q :=
  match n with
  | O => 1
  | S n' => x * qpow x n'
  end.

(** Numeric value of an expression at an assignment of its symbols. *)
Fixpoint evalf (env : string → Q) (e : Expr) : Q :=
  match e with
  | Num q => q
  | Symbol s => env s
  | Add a b => evalf env a + evalf env b
  | Mul a b => evalf env a * evalf env b
  | Pow a n => qpow (evalf env a) n
  | Abs a => Qabs (evalf env a)
  end.

(** [expr.atoms(sympy.Symbol)], listed with repetitions. *)
Fixpoint atoms (e : Expr) : list string :=
  match e with
  | Num _ => []
  | Symbol s => [s]
  | Add a b | Mul a b => atoms a ++ atoms b
  | Pow a _ | Abs a => atoms a
  end.

(** Lexical order on symbol names, the order of
    [sympy.default_sort_key(x, 'lex')] on symbols. *)
Definition lex_le (a b : string) : Prop := String.leb a b = true.

#[global] Instance lex_le_dec : RelDecision lex_le.
Proof. intros a b. unfold lex_le. apply _. Defined.

(** [float(expr)] on an expression without symbols. *)
Definition float (e : Expr) : Q := evalf (λ _, 0) e.

(** *** Polynomials: a list of (exponent vector, coefficient) terms *)

Abbreviation Monom := (list nat).
Abbreviation Term := (list nat * Q)%type.

Record Poly : Type := mkPoly { gens : list string; rep : list Term }.

(** Lexicographic comparison of exponent vectors. *)
Fixpoint monom_compare (m1 m2 : Monom) : comparison :=
  match m1, m2 with
  | [], [] => Eq
  | [], _ :: _ => Lt
  | _ :: _, [] => Gt
  | a :: m1', b :: m2' =>
      match Nat.compare a b with
      | Eq => monom_compare m1' m2'
      | c => c
      end
  end.

(** Insert a term into a list kept in decreasing monomial order, merging
    the coefficients of equal monomials. *)
Fixpoint add_term (t : Term) (p : list Term) : list Term :=
  match p with
  | [] => [t]
  | u :: p' =>
      match monom_compare (fst t) (fst u) with
      | Gt => t :: u :: p'
      | Eq => (fst u, snd t + snd u) :: p'
      | Lt => u :: add_term t p'
      end
  end.

Definition poly_add (p q : list Term) : list Term := foldr add_term q p.

Definition mul_term (t : Term) (q : list Term) : list Term :=
  map (λ u, (zip_with Nat.add (fst t) (fst u), snd t * snd u)) q.

Definition poly_mul (p q : list Term) : list Term :=
  foldr (λ t acc, poly_add (mul_term t q) acc) [] p.

Definition poly_const (k : nat) (q : Q) : list Term := [(replicate k 0%nat, q)].

Fixpoint poly_pow (k : nat) (p : list Term) (n : nat) : list Term :=
  match n with
  | O => poly_const k 1
  | S n' => poly_mul p (poly_pow k p n')
  end.

(** Position of a symbol among the generators. *)
Fixpoint index_of (s : string) (gs : list string) : option nat :=
  match gs with
  | [] => None
  | g :: gs' => if decide (s = g) then Some O else S <$> index_of s gs'
  end.

Definition poly_gen (k i : nat) : list Term :=
  [(<[i := 1%nat]> (replicate k 0%nat), 1)].

(** The dense expansion behind [expr.as_poly] over given generators: [None] when the
    expression is not a polynomial in the generators. *)
Fixpoint expand (gs : list string) (e : Expr) : option (list Term) :=
  match e with
  | Num q => Some (poly_const (length gs) q)
  | Symbol s => poly_gen (length gs) <$> index_of s gs
  | Add a b =>
      match expand gs a, expand gs b with
      | Some p, Some q => Some (poly_add p q)
      | _, _ => None
      end
  | Mul a b =>
      match expand gs a, expand gs b with
      | Some p, Some q => Some (poly_mul p q)
      | _, _ => None
      end
  | Pow a n =>
      match expand gs a with
      | Some p => Some (poly_pow (length gs) p n)
      | None => None
      end
  | Abs a =>
      match atoms a with
      | [] => Some (poly_const (length gs) (Qabs (float a)))
      | _ :: _ => None
      end
  end.

Definition as_poly (e : Expr) (gs : list string) : option Poly :=
  mkPoly gs <$> expand gs e.

(** [Poly.terms()]: the terms with a non-zero coefficient, in decreasing
    lexicographic order; the zero polynomial has the single term
    [((0, ..., 0), 0)]. *)
Definition terms (p : Poly) : list Term :=
  match filter (λ t : Term, Qeq_bool (snd t) 0 = false) (rep p) with
  | [] => [(replicate (length (gens p)) 0%nat, 0)]
  | ts => ts
  end.

(** Value of a monomial and of a term list at an assignment. *)
Fixpoint monom_eval (env : string → Q) (gs : list string) (m : Monom) : Q :=
  match gs, m with
  | g :: gs', e :: m' => qpow (env g) e * monom_eval env gs' m'
  | _, _ => 1
  end.

Definition terms_eval (env : string → Q) (gs : list string) (ts : list Term) : Q :=
  foldr (λ t acc, snd t * monom_eval env gs (fst t) + acc) 0 ts.

(** All exponent vectors of a term list have the length [k]. *)
Definition uniform (k : nat) (p : list Term) : Prop :=
  Forall (λ t : Term, length (fst t) = k) p.

(** *** Relations

    The classes of [sympy.Rel]; none of them is a subclass of another, so
    an [isinstance] test against one of them is a test of the class. *)
Inductive RelClass : Type :=
  | Equality | Unequality
  | LessThan | GreaterThan
  | StrictLessThan | StrictGreaterThan.

#[global] Instance RelClass_eq_dec : EqDecision RelClass.
Proof. solve_decision. Defined.

(** A relation object with its two arguments ([expr.args]). *)
Record Rel : Type := mkRel {
  rel_class : RelClass;
  rel_lhs : Expr;
  rel_rhs : Expr
}.


End Sympy.

(** ** Pyomo: variables, expressions, model components, solver results *)

Module Pyomo.

#[local] Open Scope Q_scope.

Inductive Domain : Type := Reals | Integers | Binary.

(** A [Var] component. [pyomo.environ.Var()] declares no bounds and the
    default domain [Reals]; the component gets its name when it is attached
    to the model with [setattr]. *)
Record Var : Type := mkVar {
  var_name : string;
  var_lb : option Q;
  var_ub : option Q;
  var_domain : Domain
}.

Definition Var_default (name : string) : Var :=
  {| var_name := name; var_lb := None; var_ub := None; var_domain := Reals |}.

(** What arithmetic on Pyomo variables and Python floats produces: a float
    stays a float, anything that involves a variable is an expression
    tree. *)
Inductive Expr : Type :=
  | Float (q : Q)
  | Ref (v : Var)
  | Prod (a b : Expr)
  | Sum (a b : Expr).

Definition mul (a b : Expr) : Expr :=
  match a, b with
  | Float x, Float y => Float (x * y)
  | _, _ => Prod a b
  end.

(** Adding a number that is zero to an expression gives the expression
    itself: this is how the [0] that [sum] starts from disappears. *)
Definition add (a b : Expr) : Expr :=
  match a, b with
  | Float x, Float y => Float (x + y)
  | Float x, _ => if Qeq_bool x 0 then b else Sum a b
  | _, Float y => if Qeq_bool y 0 then a else Sum a b
  | _, _ => Sum a b
  end.

Inductive Comparator : Type := LE | GE | EQ.

(** The result of [e1 <= e2], [e1 >= e2] or [e1 == e2]: a constraint
    expression as soon as a variable is involved, and the Python truth
    value of the comparison between two floats. *)
Inductive Relation : Type :=
  | Trivial (b : bool)
  | Cmp (op : Comparator) (a b : Expr).

Definition compare_floats (op : Comparator) (x y : Q) : bool :=
  match op with
  | LE => Qle_bool x y
  | GE => Qle_bool y x
  | EQ => Qeq_bool x y
  end.

Definition compare (op : Comparator) (a b : Expr) : Relation :=
  match a, b with
  | Float x, Float y => Trivial (compare_floats op x y)
  | _, _ => Cmp op a b
  end.

(** Value of an expression at an assignment of the model's variables
    (by name). *)
Fixpoint value (venv : string → Q) (e : Expr) : Q :=
  match e with
  | Float q => q
  | Ref v => venv (var_name v)
  | Prod a b => value venv a * value venv b
  | Sum a b => value venv a + value venv b
  end.

Definition compare_holds (op : Comparator) (x y : Q) : Prop :=
  match op with
  | LE => x <= y
  | GE => y <= x
  | EQ => x == y
  end.

Definition holds (venv : string → Q) (r : Relation) : Prop :=
  match r with
  | Trivial b => b = true
  | Cmp op a b => compare_holds op (value venv a) (value venv b)
  end.

Inductive ObjectiveSense : Type := minimize | maximize.

Inductive Component : Type :=
  | VarComponent (v : Var)
  | Objective (expr : Expr) (sense : ObjectiveSense)
  | Constraint (expr : Relation).

(** A [ConcreteModel]: its components in declaration order, and the
    variable values a loaded result has stored. *)
Record ConcreteModel : Type := mkModel {
  components : list (string * Component);
  loaded : gmap string Q
}.

Definition ConcreteModel_new : ConcreteModel :=
  {| components := []; loaded := ∅ |}.

Definition setattr (m : ConcreteModel) (name : string) (c : Component) : ConcreteModel :=
  {| components := components m ++ [(name, c)]; loaded := loaded m |}.

Inductive SolutionStatus : Type :=
  | bestSoFar | error | feasible | globallyOptimal | infeasible
  | locallyOptimal | optimal | other | stoppedByLimit | unbounded
  | unknown | unsure.

#[global] Instance SolutionStatus_eq_dec : EqDecision SolutionStatus.
Proof. solve_decision. Defined.

(** [str(status)] *)
Definition status_str (s : SolutionStatus) : string :=
  match s with
  | bestSoFar => "bestSoFar" | error => "error" | feasible => "feasible"
  | globallyOptimal => "globallyOptimal" | infeasible => "infeasible"
  | locallyOptimal => "locallyOptimal" | optimal => "optimal"
  | other => "other" | stoppedByLimit => "stoppedByLimit"
  | unbounded => "unbounded" | unknown => "unknown" | unsure => "unsure"
  end.

Record SolverResults : Type := mkResults {
  Status : SolutionStatus;
  Variable_values : gmap string Q
}.

(** [model.load(result)] *)
Definition load (m : ConcreteModel) (r : SolverResults) : ConcreteModel :=
  {| components := components m; loaded := Variable_values r |}.

(** [variable.value]: [None] until a result that mentions the variable is
    loaded. *)
Definition Var_value (m : ConcreteModel) (v : Var) : option Q :=
  loaded m !! var_name v.

(** A solver plugin as [SolverFactory] hands it out. *)
Record OptSolver : Type := mkOptSolver {
  solver_name : string;
  solver_io : string
}.

End Pyomo.

(** ** friendlysam.optimization.optimization: the problem definition *)

Module Optimization.

(** Modelled from the spec: the module [friendlysam.optimization.optimization]
    ([Variable], [Domain], [Sense], [RelConstraint], [SOS1Constraint],
    [SOS2Constraint], [Problem]) is imported by the solver module but is
    not part of the sources. A variable has an identity, optional lower and
    upper bounds and a domain tag; it is a sympy symbol, and its name is
    its identity. ([Variable] is a reserved word, hence [Variable_].) *)
Inductive Domain : Type := continuous | integer | binary.

Record Variable_ : Type := mkVariable {
  name : string;
  lb : option Q;
  ub : option Q;
  domain : Domain
}.

Inductive Sense : Type := minimize | maximize.

(** Modelled from the spec: the objects a problem's constraint set may
    hold, as far as [_add_constraint] tells them apart: a [RelConstraint]
    wrapping an expression, a bare sympy object, the two ordered-set
    constraints, and any other object. A sympy object is a relation or
    something else (such as [sympy.true]). *)
Inductive SympyObject : Type :=
  | IsRel (r : Sympy.Rel)
  | NotRel (repr : string).

Inductive Object : Type :=
  | RelConstraint (expr : SympyObject)
  | Bare (o : SympyObject)
  | SOS1Constraint (variables : list Variable_)
  | SOS2Constraint (variables : list Variable_)
  | OtherObject (repr : string).

(** Modelled from the spec: a problem has an objective, a sense, a set of
    constraints and the set of its variables (listed in iteration
    order). *)
Record Problem : Type := mkProblem {
  objective : Sympy.Expr;
  sense : Sense;
  constraints : list Object;
  variables : list Variable_
}.

End Optimization.

(** ** Python exceptions and results *)

(** The arguments of a [str.format] call that builds an exception
    message. *)
Inductive FormatArg : Type :=
  | ArgExpr (e : Sympy.Expr)
  | ArgRel (r : Sympy.Rel)
  | ArgType (c : Sympy.RelClass)
  | ArgStatus (s : Pyomo.SolutionStatus).

(** An exception message: the format string and its arguments. *)
Record Message : Type := Format { template : string; args : list FormatArg }.

Definition dquote : string := String (Ascii.ascii_of_nat 34) EmptyString.

Inductive Exception : Type :=
  | SolverNotAvailableError
  | SolverError (msg : Message)
  | PyomoExpressionError (msg : Message)
  | NotImplementedError
  | ValueError (msg : Message)
  | KeyError (key : string)
  | TypeError
  | AttributeError
  | ApplicationError.

Inductive Result (A : Type) : Type :=
  | Return (a : A)
  | Raise (e : Exception).
Arguments Return {A} a.
Arguments Raise {A} e.

#[global] Instance Result_ret : MRet Result := λ A a, Return a.
#[global] Instance Result_bind : MBind Result := λ A B f r,
  match r with
  | Return a => f a
  | Raise e => Raise e
  end.
#[global] Instance Result_fmap : FMap Result := λ A B f r,
  match r with
  | Return a => Return (f a)
  | Raise e => Raise e
  end.

Definition is_Return {A} (r : Result A) : Prop := ∃ a, r = Return a.
Definition is_Raise {A} (r : Result A) : Prop := ∃ e, r = Raise e.

(** ** friendlysam.optimization.solvers *)

(** The attributes of a [PyomoSolver] instance. [__init__] sets [_solver];
    the others are (re)initialised at the start of every [solve]. *)
Record PyomoSolver : Type := mkPyomoSolver {
  _solver : option Pyomo.OptSolver;
  _constraint_counter : nat;
  _var_counter : nat;
  _model : Pyomo.ConcreteModel;
  _pyomo_variables : gmap string Pyomo.Var
}.

Definition set_constraint_counter (n : nat) (self : PyomoSolver) : PyomoSolver :=
  mkPyomoSolver (_solver self) n (_var_counter self) (_model self) (_pyomo_variables self).
Definition set_var_counter (n : nat) (self : PyomoSolver) : PyomoSolver :=
  mkPyomoSolver (_solver self) (_constraint_counter self) n (_model self) (_pyomo_variables self).
Definition set_model (m : Pyomo.ConcreteModel) (self : PyomoSolver) : PyomoSolver :=
  mkPyomoSolver (_solver self) (_constraint_counter self) (_var_counter self) m (_pyomo_variables self).
Definition set_pyomo_variables (d : gmap string Pyomo.Var) (self : PyomoSolver) : PyomoSolver :=
  mkPyomoSolver (_solver self) (_constraint_counter self) (_var_counter self) (_model self) d.

(** Methods: a computation on the instance that returns a value and the
    updated instance, or raises. *)
Definition Method (A : Type) : Type := PyomoSolver → Result (A * PyomoSolver).

#[global] Instance Method_ret : MRet Method := λ A a self, Return (a, self).
#[global] Instance Method_bind : MBind Method := λ A B f m self,
  match m self with
  | Return (a, self') => f a self'
  | Raise e => Raise e
  end.

Definition raise {A} (e : Exception) : Method A := λ _, Raise e.
Definition update (f : PyomoSolver → PyomoSolver) : Method unit := λ self, Return ((), f self).
Definition reading {A} (f : PyomoSolver → Result A) : Method A := λ self,
  match f self with
  | Return a => Return (a, self)
  | Raise e => Raise e
  end.

Fixpoint for_each {A} (f : A → Method unit) (l : list A) : Method unit :=
  match l with
  | [] => mret ()
  | x :: l' => f x ≫= λ _, for_each f l'
  end.

(** [reduce(operator.mul, factors)]: a [TypeError] on an empty sequence. *)
Definition reduce_mul (factors : list Pyomo.Expr) : Result Pyomo.Expr :=
  match factors with
  | [] => Raise TypeError
  | f :: fs => Return (foldl Pyomo.mul f fs)
  end.

(** [sum(terms)], which starts from [0]. *)
Definition py_sum (terms : list Pyomo.Expr) : Pyomo.Expr :=
  foldl Pyomo.add (Pyomo.Float 0) terms.

(** [sorted(expr.atoms(sympy.Symbol), key=...)] *)
Definition sorted_symbols (expr : Sympy.Expr) : list string :=
  merge_sort Sympy.lex_le (remove_dups (Sympy.atoms expr)).

(** [[self._pyomo_variables[s] for s in symbols]] *)
Definition lookup_variables (d : gmap string Pyomo.Var) (symbols : list string)
  : Result (list Pyomo.Var) :=
  mapM (λ s, match d !! s with
             | Some v => Return v
             | None => Raise (KeyError s)
             end) symbols.

(** The factors of one monomial: each variable with a non-zero exponent,
    repeated as many times as its exponent. *)
Definition make_factors (variables : list Pyomo.Var) (exponents : list nat)
  : list Pyomo.Expr :=
  foldl (λ factors be, factors ++ replicate (snd be) (Pyomo.Ref (fst be)))
        []
        (filter (λ ae : Pyomo.Var * nat, snd ae ≠ 0%nat) (zip variables exponents)).

(** The body of the loop over [polynomial.terms()]. *)
Definition make_term (variables : list Pyomo.Var) (t : Sympy.Term) : Result Pyomo.Expr :=
  let exponents := fst t in
  let coeff := snd t in
  if forallb (λ e, Nat.eqb e 0) exponents
  then Return (Pyomo.Float coeff)
  else Pyomo.mul (Pyomo.Float coeff) <$> reduce_mul (make_factors variables exponents).

Definition not_a_polynomial (expr : Sympy.Expr) : Message :=
  Format "{} is not a sympy polynomial" [ArgExpr expr].

Definition _make_pyomo_poly (self : PyomoSolver) (expr : Sympy.Expr) : Result Pyomo.Expr :=
  let symbols := sorted_symbols expr in
  variables ← lookup_variables (_pyomo_variables self) symbols;
  if decide (length symbols = 0%nat) then Return (Pyomo.Float (Sympy.float expr))
  else
    match Sympy.as_poly expr symbols with
    | None => Raise (ValueError (not_a_polynomial expr))
    | Some polynomial =>
        terms ← mapM (make_term variables) (Sympy.terms polynomial);
        Return (py_sum terms)
    end.

Definition strict_not_allowed : Message :=
  Format "Strict inequalities are not allowed." [].

Definition cannot_be_translated (expr : Sympy.Rel) : Message :=
  Format ("Expression " +:+ dquote +:+ "{}" +:+ dquote +:+ " ({}) cannot be translated.")
         [ArgRel expr; ArgType (Sympy.rel_class expr)].

Definition _make_pyomo_relation (self : PyomoSolver) (expr : Sympy.Rel)
  : Result Pyomo.Relation :=
  let a := Sympy.rel_lhs expr in
  let b := Sympy.rel_rhs expr in
  match Sympy.rel_class expr with
  | Sympy.LessThan =>
      p ← _make_pyomo_poly self (Sympy.Sub a b);
      Return (Pyomo.compare Pyomo.LE p (Pyomo.Float 0))
  | Sympy.GreaterThan =>
      p ← _make_pyomo_poly self (Sympy.Sub a b);
      Return (Pyomo.compare Pyomo.GE p (Pyomo.Float 0))
  | Sympy.Equality =>
      p ← _make_pyomo_poly self (Sympy.Sub a b);
      Return (Pyomo.compare Pyomo.EQ p (Pyomo.Float 0))
  | Sympy.StrictGreaterThan | Sympy.StrictLessThan =>
      Raise (PyomoExpressionError strict_not_allowed)
  | Sympy.Unequality =>
      Raise (PyomoExpressionError (cannot_be_translated expr))
  end.

Definition _add_var : Method Pyomo.Var := λ self,
  let counter := S (_var_counter self) in
  let name := "v" +:+ pretty counter in
  let var := Pyomo.Var_default name in
  Return (var, set_model (Pyomo.setattr (_model self) name (Pyomo.VarComponent var))
                         (set_var_counter counter self)).

Definition _get_constraint_name : Method string := λ self,
  let counter := S (_constraint_counter self) in
  Return ("c" +:+ pretty counter, set_constraint_counter counter self).

(** Attaching [Constraint(expr=expr)] to the model: Pyomo rejects an
    expression that is a plain truth value with a [ValueError], which the
    method prints and raises again (the printing is not modelled). *)
Definition trivial_constraint : Message :=
  Format "Invalid constraint expression." [].

Definition attach_constraint (name : string) (expr : Pyomo.Relation) : Method unit :=
  match expr with
  | Pyomo.Trivial _ => raise (ValueError trivial_constraint)
  | Pyomo.Cmp _ _ _ =>
      update (λ self, set_model (Pyomo.setattr (_model self) name (Pyomo.Constraint expr)) self)
  end.

Definition _add_constraint (c : Optimization.Object) : Method unit :=
  let c :=
    match c with
    | Optimization.RelConstraint expr => Optimization.Bare expr
    | _ => c
    end in
  match c with
  | Optimization.Bare (Optimization.IsRel r) =>
      expr ← reading (λ self, _make_pyomo_relation self r);
      name ← _get_constraint_name;
      attach_constraint name expr
  | Optimization.SOS1Constraint _ => raise NotImplementedError
  | Optimization.SOS2Constraint _ => raise NotImplementedError
  | _ => raise NotImplementedError
  end.

Definition sense_translation (s : Optimization.Sense) : Pyomo.ObjectiveSense :=
  match s with
  | Optimization.minimize => Pyomo.minimize
  | Optimization.maximize => Pyomo.maximize
  end.

Definition _set_objective (problem : Optimization.Problem) : Method unit :=
  expr ← reading (λ self, _make_pyomo_poly self (Optimization.objective problem));
  update (λ self,
    set_model (Pyomo.setattr (_model self) "obj"
                 (Pyomo.Objective expr (sense_translation (Optimization.sense problem))))
              self).

(** [{v: self._add_var() for v in problem.variables}] *)
Fixpoint bind_variables (vs : list Optimization.Variable_) (d : gmap string Pyomo.Var)
  : Method (gmap string Pyomo.Var) :=
  match vs with
  | [] => mret d
  | v :: vs' => _add_var ≫= λ var, bind_variables vs' (<[Optimization.name v := var]> d)
  end.

Definition status_message (s : Pyomo.SolutionStatus) : Message :=
  Format "pyomo solution status is '{0}'" [ArgStatus s].

Definition DEFAULT_SOLVER_ORDER : list string := ["gurobi"; "cbc"].

(** The loop of [get_solver] over a table of constructors: the first
    candidate that is constructed is returned, a candidate that raises
    [SolverNotAvailableError] is passed over, any other exception
    propagates, and the end of the loop returns [None]. *)
Fixpoint get_solver_from (funcs : gmap string (unit → Result PyomoSolver))
    (names : list string) : Result (option PyomoSolver) :=
  match names with
  | [] => Return None
  | name :: names' =>
      match funcs !! name with
      | None => Raise (KeyError name)
      | Some f =>
          match f () with
          | Return s => Return (Some s)
          | Raise SolverNotAvailableError => get_solver_from funcs names'
          | Raise e => Raise e
          end
      end
  end.

Section Backend.

(** The two calls into the installed Pyomo that depend on the machine:
    [SolverFactory(name, solver_io=io)], which hands out a plugin or
    [None] when it has none that is usable, and the plugin's [solve]. *)
Variable SolverFactory : string → string → option Pyomo.OptSolver.
Variable opt_solve : Pyomo.OptSolver → Pyomo.ConcreteModel → Result Pyomo.SolverResults.

(** The module global [solver_order], as it is bound when [get_solver] is
    called. The module binds it to [DEFAULT_SOLVER_ORDER]; a caller may
    rebind it. *)
Variable solver_order : list string.

(** [PyomoSolver.__init__(solver, solver_io=io)] *)
Definition PyomoSolver_init (solver io : string) : Result PyomoSolver :=
  Return {| _solver := SolverFactory solver io;
            _constraint_counter := 0;
            _var_counter := 0;
            _model := Pyomo.ConcreteModel_new;
            _pyomo_variables := ∅ |}.

Definition _solver_funcs : gmap string (unit → Result PyomoSolver) :=
  <["gurobi" := λ _, PyomoSolver_init "gurobi" "python"]>
  (<["cbc" := λ _, PyomoSolver_init "cbc" "asl"]> ∅).

Definition get_solver (names : list string) : Result (option PyomoSolver) :=
  let names := if decide (length names = 0%nat) then solver_order else names in
  get_solver_from _solver_funcs names.

(** [self._solver.solve(self._model)] *)
Definition run_solver : Method Pyomo.SolverResults := λ self,
  match _solver self with
  | None => Raise AttributeError
  | Some opt =>
      match opt_solve opt (_model self) with
      | Return result => Return (result, self)
      | Raise e => Raise e
      end
  end.

(** The part of [solve] that builds the model. The module is Python 2
    code ([except ValueError, e]), where [map] is eager: every constraint
    is dispatched, in order. [self._model.preprocess()] changes nothing
    that is modelled here. *)
Definition build_model (problem : Optimization.Problem) : Method unit :=
  update (set_constraint_counter 0) ≫= λ _,
  update (set_var_counter 0) ≫= λ _,
  update (set_model Pyomo.ConcreteModel_new) ≫= λ _,
  bind_variables (Optimization.variables problem) ∅ ≫= λ d,
  update (set_pyomo_variables d) ≫= λ _,
  _set_objective problem ≫= λ _,
  for_each _add_constraint (Optimization.constraints problem).

(** [{key: variable.value for key, variable in self._pyomo_variables.items()}] *)
Definition variable_values : Method (gmap string (option Q)) := λ self,
  Return (Pyomo.Var_value (_model self) <$> _pyomo_variables self, self).

(** The part of [solve] that looks at the solver's result. *)
Definition read_solution (result : Pyomo.SolverResults) : Method (gmap string (option Q)) :=
  if decide (Pyomo.Status result = Pyomo.optimal)
  then
    update (λ self, set_model (Pyomo.load (_model self) result) self) ≫= λ _,
    variable_values
  else raise (SolverError (status_message (Pyomo.Status result))).

Definition solve (problem : Optimization.Problem) : Method (gmap string (option Q)) :=
  build_model problem ≫= λ _,
  run_solver ≫= λ result,
  read_solution result.

End Backend.

(** ** Vocabulary of the statements *)

(** The factors a variable list and an exponent vector stand for: the
    [i]-th variable repeated as many times as the [i]-th exponent. *)
Definition expanded_factors (variables : list Pyomo.Var) (exponents : list nat)
  : list Pyomo.Expr :=
  concat (zip_with (λ v n, replicate n (Pyomo.Ref v)) variables exponents).

(** How one term of the polynomial is realised in the translation: a term
    whose exponents are all zero as the bare number, any other term as the
    coefficient times the product of its expanded factors. *)
Inductive realises (variables : list Pyomo.Var) : Sympy.Term → Pyomo.Expr → Prop :=
  | realises_constant exponents coeff :
      Forall (λ e, e = 0%nat) exponents →
      realises variables (exponents, coeff) (Pyomo.Float coeff)
  | realises_product exponents coeff f fs :
      ¬ Forall (λ e, e = 0%nat) exponents →
      expanded_factors variables exponents = f :: fs →
      realises variables (exponents, coeff)
               (Pyomo.mul (Pyomo.Float coeff) (foldl Pyomo.mul f fs)).

(** An assignment of the model's variables agrees with an assignment of
    the symbols on the symbols of an expression. *)
Definition agree (d : gmap string Pyomo.Var) (expr : Sympy.Expr)
    (env venv : string → Q) : Prop :=
  ∀ s v, s ∈ Sympy.atoms expr → d !! s = Some v → (venv (Pyomo.var_name v) == env s)%Q.

(** Product and sum of the values of a list of expressions. *)
Definition prod_values (venv : string → Q) (l : list Pyomo.Expr) : Q :=
  foldr (λ e acc, Pyomo.value venv e * acc)%Q 1%Q l.

Definition sum_values (venv : string → Q) (l : list Pyomo.Expr) : Q :=
  foldr (λ e acc, Pyomo.value venv e + acc)%Q 0%Q l.

(** What the model-building methods leave alone: the plugin and the
    binding. *)
Definition frame {A} (m : Method A) : Prop :=
  ∀ self a self', m self = Return (a, self') →
    _solver self' = _solver self ∧ _pyomo_variables self' = _pyomo_variables self.

(** The name of the [i]-th variable declared on a model. *)
Definition var_label (i : nat) : string := "v" +:+ pretty i.

Definition domain_translation (d : Optimization.Domain) : Pyomo.Domain :=
  match d with
  | Optimization.continuous => Pyomo.Reals
  | Optimization.integer => Pyomo.Integers
  | Optimization.binary => Pyomo.Binary
  end.

(** A solver variable that carries the bounds and the domain of a problem
    variable. *)
Definition preserves_metadata (v : Optimization.Variable_) (pv : Pyomo.Var) : Prop :=
  Pyomo.var_lb pv = Optimization.lb v
  ∧ Pyomo.var_ub pv = Optimization.ub v
  ∧ Pyomo.var_domain pv = domain_translation (Optimization.domain v).

(** The comparator a translatable relation class maps to. *)
Definition comparator_of (c : Sympy.RelClass) : option Pyomo.Comparator :=
  match c with
  | Sympy.LessThan => Some Pyomo.LE
  | Sympy.GreaterThan => Some Pyomo.GE
  | Sympy.Equality => Some Pyomo.EQ
  | _ => None
  end.



Definition strict (c : Sympy.RelClass) : bool :=
  match c with
  | Sympy.StrictLessThan | Sympy.StrictGreaterThan => true
  | _ => false
  end.

(** The name of the [i]-th constraint attached to a model. *)
Definition c_label (i : nat) : string := "c" +:+ pretty i.

(** The objects [_add_constraint] has no translation for. *)
Definition unsupported (c : Optimization.Object) : bool :=
  match c with
  | Optimization.RelConstraint (Optimization.IsRel r)
  | Optimization.Bare (Optimization.IsRel r) =>
      match comparator_of (Sympy.rel_class r) with
      | Some _ => false
      | None => true
      end
  | _ => true
  end.

(** The relation an object of the constraint set wraps, if any. *)
Definition relation_of (c : Optimization.Object) : option Sympy.Rel :=
  match c with
  | Optimization.RelConstraint (Optimization.IsRel r)
  | Optimization.Bare (Optimization.IsRel r) => Some r
  | _ => None
  end.

(** An assignment of the model's variables that agrees with an assignment
    of the symbols on every bound symbol. *)
Definition agree_all (d : gmap string Pyomo.Var) (env venv : string → Q) : Prop :=
  ∀ s v, d !! s = Some v → (venv (Pyomo.var_name v) == env s)%Q.

(** ** Concrete inputs *)

Module Example.

Definition x : Sympy.Expr := Sympy.Symbol "x".
Definition y : Sympy.Expr := Sympy.Symbol "y".

(** [2*x**2*y + 3] *)
Definition poly1 : Sympy.Expr :=
  Sympy.Add (Sympy.Mul (Sympy.Num 2) (Sympy.Mul (Sympy.Pow x 2) y)) (Sympy.Num 3).

Definition cbc : Pyomo.OptSolver := Pyomo.mkOptSolver "cbc" "asl".

Definition binding1 : gmap string Pyomo.Var :=
  <["x" := Pyomo.Var_default "v1"]> (<["y" := Pyomo.Var_default "v2"]> ∅).

Definition bound_solver : PyomoSolver :=
  mkPyomoSolver (Some cbc) 0 2 Pyomo.ConcreteModel_new binding1.

Definition fresh_solver : PyomoSolver :=
  mkPyomoSolver (Some cbc) 0 0 Pyomo.ConcreteModel_new ∅.

(** [Variable(lb=-1, domain=Domain.integer)] *)
Definition x_var : Optimization.Variable_ :=
  Optimization.mkVariable "x" (Some (-1)%Q) None Optimization.integer.
Definition y_var : Optimization.Variable_ :=
  Optimization.mkVariable "y" None None Optimization.continuous.

(** minimise [x] subject to [x >= 3] *)
Definition problem1 : Optimization.Problem :=
  Optimization.mkProblem x Optimization.minimize
    [Optimization.RelConstraint
       (Optimization.IsRel (Sympy.mkRel Sympy.GreaterThan x (Sympy.Num 3)))]
    [x_var].

(** minimise [x] subject to [x >= 5] and [x <= 1] *)
Definition contradictory : Optimization.Problem :=
  Optimization.mkProblem x Optimization.minimize
    [Optimization.RelConstraint
       (Optimization.IsRel (Sympy.mkRel Sympy.GreaterThan x (Sympy.Num 5)));
     Optimization.RelConstraint
       (Optimization.IsRel (Sympy.mkRel Sympy.LessThan x (Sympy.Num 1)))]
    [x_var].

(** minimise [|x|] *)
Definition absolute : Optimization.Problem :=
  Optimization.mkProblem (Sympy.Abs x) Optimization.minimize [] [x_var].

Definition optimal_at_3 (_ : Pyomo.OptSolver) (_ : Pyomo.ConcreteModel)
  : Result Pyomo.SolverResults :=
  Return (Pyomo.mkResults Pyomo.optimal {["v1" := 3%Q]}).

Definition reports_infeasible (_ : Pyomo.OptSolver) (_ : Pyomo.ConcreteModel)
  : Result Pyomo.SolverResults :=
  Return (Pyomo.mkResults Pyomo.infeasible ∅).

(** A machine with cbc but without gurobi, and one with neither. *)
Definition only_cbc (name io : string) : option Pyomo.OptSolver :=
  if String.eqb name "cbc" then Some (Pyomo.mkOptSolver name io) else None.

Definition nothing_installed (name io : string) : option Pyomo.OptSolver := None.

(** The constructors as the docstring of [PyomoSolver.__init__] describes
    them on a machine without gurobi: the first raises
    [SolverNotAvailableError], the second returns an instance. *)
Definition documented_funcs : gmap string (unit → Result PyomoSolver) :=
  <["gurobi" := λ _, Raise SolverNotAvailableError]>
  (<["cbc" := λ _, Return fresh_solver]> ∅).

Definition unavailable_funcs : gmap string (unit → Result PyomoSolver) :=
  <["gurobi" := λ _, Raise SolverNotAvailableError]>
  (<["cbc" := λ _, Raise SolverNotAvailableError]> ∅).

(** An instance whose plugin is missing. *)
Definition no_plugin : PyomoSolver :=
  mkPyomoSolver None 0 0 Pyomo.ConcreteModel_new ∅.

(** A backend whose [solve] raises. *)
Definition crashes (_ : Pyomo.OptSolver) (_ : Pyomo.ConcreteModel)
  : Result Pyomo.SolverResults := Raise ApplicationError.

(** minimise [x + 0.5*y] subject to [x + y == 3] and an ordered-set
    constraint of type 1 over [x] and [y] *)
Definition with_sos1 : Optimization.Problem :=
  Optimization.mkProblem
    (Sympy.Add x (Sympy.Mul (Sympy.Num (1 # 2)) y)) Optimization.minimize
    [Optimization.SOS1Constraint [x_var; y_var];
     Optimization.RelConstraint
       (Optimization.IsRel (Sympy.mkRel Sympy.Equality (Sympy.Add x y) (Sympy.Num 3)))]
    [x_var; y_var].

(** [3 * |-2|] *)
Definition closed1 : Sympy.Expr :=
  Sympy.Mul (Sympy.Num 3) (Sympy.Abs (Sympy.Num (-2))).

(** minimise [y] over the variable [x] alone *)
Definition stray : Optimization.Problem :=
  Optimization.mkProblem y Optimization.minimize [] [x_var].

End Example.

(** * Facts about the sympy model *)

Module SympyFacts.
Import Sympy.

#[local] Open Scope Q_scope.
#[local] Arguments terms_eval : simpl never.

#[global] Instance qpow_proper : Proper (Qeq ==> eq ==> Qeq) qpow.
Proof.
  intros x y Hxy n ? <-. induction n as [|n IH]; simpl; [reflexivity|].
  rewrite IH, Hxy. reflexivity.
Qed.

Lemma qpow_add (x : Q) (a b : nat) : qpow x (a + b) == qpow x a * qpow x b.
Proof. induction a as [|a IH]; simpl; [ring | rewrite IH; ring]. Qed.

Lemma qpow_1_l (n : nat) : qpow 1 n == 1.
Proof. induction n as [|n IH]; simpl; [reflexivity | rewrite IH; ring]. Qed.

(** The value of an expression depends on its symbols only. *)
Lemma evalf_ext (env1 env2 : string → Q) (e : Expr) :
  (∀ s, s ∈ atoms e → env1 s = env2 s) → evalf env1 e = evalf env2 e.
Proof.
  induction e as [q|s|a IHa b IHb|a IHa b IHb|a IHa n|a IHa]; simpl; intros H.
  - reflexivity.
  - apply H. set_solver.
  - rewrite IHa, IHb; [done | set_solver | set_solver].
  - rewrite IHa, IHb; [done | set_solver | set_solver].
  - by rewrite IHa.
  - by rewrite IHa.
Qed.

Lemma evalf_closed (env : string → Q) (e : Expr) :
  atoms e = [] → evalf env e = float e.
Proof.
  intros H. apply evalf_ext. rewrite H. intros s Hs. by apply elem_of_nil in Hs.
Qed.

Lemma monom_compare_eq (m1 m2 : Monom) : monom_compare m1 m2 = Eq → m1 = m2.
Proof.
  revert m2. induction m1 as [|a m1 IH]; intros [|b m2]; simpl; try done.
  destruct (Nat.compare a b) eqn:Hc; try done.
  apply Nat.compare_eq in Hc. intros H. f_equal; [done | by apply IH].
Qed.

Lemma monom_eval_zeros env gs k : monom_eval env gs (replicate k 0%nat) == 1.
Proof.
  revert k. induction gs as [|g gs IH]; intros [|k]; simpl; try reflexivity.
  rewrite IH. ring.
Qed.

Lemma monom_eval_add env gs (m1 m2 : Monom) :
  length m1 = length m2 →
  monom_eval env gs (zip_with Nat.add m1 m2)
  == monom_eval env gs m1 * monom_eval env gs m2.
Proof.
  revert m1 m2. induction gs as [|g gs IH]; intros [|a m1] [|b m2] Hlen;
    simpl in *; try discriminate; try ring.
  rewrite qpow_add, IH by lia. ring.
Qed.

Lemma monom_eval_gen env gs s i :
  index_of s gs = Some i →
  monom_eval env gs (<[i := 1%nat]> (replicate (length gs) 0%nat)) == env s.
Proof.
  revert i. induction gs as [|g gs IH]; intros i; simpl; [done|].
  case_decide as Hsg.
  - intros [= <-]. simpl. subst g. rewrite monom_eval_zeros. ring.
  - destruct (index_of s gs) as [j|] eqn:Hj; simpl; [|done].
    intros [= <-]. simpl. rewrite (IH j eq_refl). ring.
Qed.

Lemma terms_eval_cons env gs (t : Term) (p : list Term) :
  terms_eval env gs (t :: p) = snd t * monom_eval env gs (fst t) + terms_eval env gs p.
Proof. reflexivity. Qed.

Lemma terms_eval_app env gs (p q : list Term) :
  terms_eval env gs (p ++ q) == terms_eval env gs p + terms_eval env gs q.
Proof.
  induction p as [|t p IH]; simpl; [unfold terms_eval; simpl; ring|].
  rewrite !terms_eval_cons, IH. ring.
Qed.

Lemma terms_eval_add_term env gs (t : Term) (p : list Term) :
  terms_eval env gs (add_term t p)
  == snd t * monom_eval env gs (fst t) + terms_eval env gs p.
Proof.
  induction p as [|u p IH]; simpl; [reflexivity|].
  destruct (monom_compare (fst t) (fst u)) eqn:Hc.
  - apply monom_compare_eq in Hc. rewrite !terms_eval_cons. simpl. rewrite Hc. ring.
  - rewrite !terms_eval_cons, IH. ring.
  - rewrite !terms_eval_cons. ring.
Qed.

Lemma terms_eval_poly_add env gs (p q : list Term) :
  terms_eval env gs (poly_add p q) == terms_eval env gs p + terms_eval env gs q.
Proof.
  unfold poly_add. induction p as [|t p IH]; simpl; [unfold terms_eval; simpl; ring|].
  rewrite terms_eval_add_term, IH, terms_eval_cons. ring.
Qed.

Lemma uniform_add_term k (t : Term) (p : list Term) :
  length (fst t) = k → uniform k p → uniform k (add_term t p).
Proof.
  intros Ht Hp. induction Hp as [|u p Hu Hp IH]; simpl.
  - by constructor.
  - destruct (monom_compare (fst t) (fst u)).
    + constructor; [simpl; done | done].
    + constructor; [done | exact IH].
    + constructor; [done | by constructor].
Qed.

Lemma uniform_poly_add k p q : uniform k p → uniform k q → uniform k (poly_add p q).
Proof.
  intros Hp Hq. unfold poly_add. induction Hp as [|t p Ht Hp IH]; simpl; [done|].
  by apply uniform_add_term.
Qed.

Lemma uniform_mul_term k (t : Term) (q : list Term) :
  length (fst t) = k → uniform k q → uniform k (mul_term t q).
Proof.
  intros Ht Hq. unfold mul_term, uniform. rewrite Forall_map.
  eapply Forall_impl; [exact Hq|]. intros u Hu. simpl in *.
  rewrite length_zip_with. lia.
Qed.

Lemma uniform_poly_mul k p q : uniform k p → uniform k q → uniform k (poly_mul p q).
Proof.
  intros Hp Hq. unfold poly_mul. induction Hp as [|t p Ht Hp IH]; simpl.
  - constructor.
  - apply uniform_poly_add; [by apply uniform_mul_term | done].
Qed.

Lemma uniform_poly_const k q : uniform k (poly_const k q).
Proof. repeat constructor. simpl. by rewrite length_replicate. Qed.

Lemma uniform_poly_pow k p n : uniform k p → uniform k (poly_pow k p n).
Proof.
  intros Hp. induction n as [|n IH]; simpl.
  - apply uniform_poly_const.
  - by apply uniform_poly_mul.
Qed.

Lemma uniform_expand gs e p : expand gs e = Some p → uniform (length gs) p.
Proof.
  revert p. induction e as [q|s|a IHa b IHb|a IHa b IHb|a IHa n|a IHa]; simpl; intros p.
  - intros [= <-]. apply uniform_poly_const.
  - destruct (index_of s gs) as [i|]; simpl; [|done]. intros [= <-].
    repeat constructor. simpl. by rewrite length_insert, length_replicate.
  - destruct (expand gs a) as [pa|], (expand gs b) as [pb|]; try done.
    intros [= <-]. apply uniform_poly_add; auto.
  - destruct (expand gs a) as [pa|], (expand gs b) as [pb|]; try done.
    intros [= <-]. apply uniform_poly_mul; auto.
  - destruct (expand gs a) as [pa|]; [|done].
    intros [= <-]. apply uniform_poly_pow; auto.
  - destruct (atoms a); [|done]. intros [= <-]. apply uniform_poly_const.
Qed.

Lemma terms_eval_mul_term env gs k (t : Term) (q : list Term) :
  length (fst t) = k → uniform k q →
  terms_eval env gs (mul_term t q)
  == (snd t * monom_eval env gs (fst t)) * terms_eval env gs q.
Proof.
  intros Ht Hq. induction Hq as [|u q Hu Hq IH]; simpl.
  - unfold terms_eval. simpl. ring.
  - rewrite !terms_eval_cons. simpl. unfold mul_term in IH. rewrite IH.
    rewrite (monom_eval_add env gs (fst t) (fst u)) by congruence. ring.
Qed.

Lemma terms_eval_poly_mul env gs k p q :
  uniform k p → uniform k q →
  terms_eval env gs (poly_mul p q) == terms_eval env gs p * terms_eval env gs q.
Proof.
  intros Hp Hq. unfold poly_mul. induction Hp as [|t p Ht Hp IH]; simpl.
  - unfold terms_eval. simpl. ring.
  - rewrite terms_eval_poly_add, (terms_eval_mul_term env gs k) by done.
    rewrite IH, terms_eval_cons. ring.
Qed.

Lemma terms_eval_poly_const env gs k c : terms_eval env gs (poly_const k c) == c.
Proof. unfold poly_const, terms_eval. simpl. rewrite monom_eval_zeros. ring. Qed.

Lemma terms_eval_poly_pow env gs p n :
  uniform (length gs) p →
  terms_eval env gs (poly_pow (length gs) p n) == qpow (terms_eval env gs p) n.
Proof.
  intros Hp. induction n as [|n IH]; simpl.
  - apply terms_eval_poly_const.
  - rewrite (terms_eval_poly_mul env gs (length gs)), IH;
      [reflexivity | done | by apply uniform_poly_pow].
Qed.

(** The expansion has the value of the expression. *)
Lemma expand_sound env gs e p :
  expand gs e = Some p → terms_eval env gs p == evalf env e.
Proof.
  revert p. induction e as [q|s|a IHa b IHb|a IHa b IHb|a IHa n|a IHa]; simpl; intros p.
  - intros [= <-]. apply terms_eval_poly_const.
  - destruct (index_of s gs) as [i|] eqn:Hi; simpl; [|done]. intros [= <-].
    unfold poly_gen, terms_eval. simpl. rewrite (monom_eval_gen env gs s i Hi). ring.
  - destruct (expand gs a) as [pa|] eqn:Ha, (expand gs b) as [pb|] eqn:Hb; try done.
    intros [= <-]. rewrite terms_eval_poly_add, IHa, IHb; reflexivity.
  - destruct (expand gs a) as [pa|] eqn:Ha, (expand gs b) as [pb|] eqn:Hb; try done.
    intros [= <-].
    rewrite (terms_eval_poly_mul env gs (length gs)), IHa, IHb;
      [reflexivity | reflexivity | reflexivity | by eapply uniform_expand
      | by eapply uniform_expand].
  - destruct (expand gs a) as [pa|] eqn:Ha; [|done].
    intros [= <-]. rewrite terms_eval_poly_pow by (by eapply uniform_expand).
    by rewrite IHa.
  - destruct (atoms a) eqn:Hat; [|done]. intros [= <-].
    rewrite terms_eval_poly_const. by rewrite (evalf_closed env a Hat).
Qed.

Lemma terms_eval_filter env gs (p : list Term) :
  terms_eval env gs (filter (λ t : Term, Qeq_bool (snd t) 0 = false) p)
  == terms_eval env gs p.
Proof.
  induction p as [|t p IH]; [reflexivity|].
  rewrite filter_cons. case_decide as Ht.
  - rewrite !terms_eval_cons, IH. reflexivity.
  - rewrite terms_eval_cons, IH.
    destruct (Qeq_bool (snd t) 0) eqn:Hz; [|done].
    apply Qeq_bool_eq in Hz. rewrite Hz. ring.
Qed.

(** [Poly.terms()] has the value of the polynomial. *)
Lemma terms_sound env (p : Poly) :
  terms_eval env (gens p) (terms p) == terms_eval env (gens p) (rep p).
Proof.
  unfold terms. rewrite <- (terms_eval_filter env (gens p) (rep p)).
  destruct (filter _ (rep p)); [|reflexivity].
  unfold terms_eval. simpl. ring.
Qed.

Lemma uniform_terms (p : Poly) :
  uniform (length (gens p)) (rep p) → uniform (length (gens p)) (terms p).
Proof.
  intros Hp. unfold terms.
  destruct (filter _ (rep p)) as [|t ts] eqn:Hf.
  - repeat constructor. simpl. by rewrite length_replicate.
  - rewrite <- Hf. unfold uniform in *. rewrite Forall_forall in *.
    intros t' Ht'. apply Hp. by apply list_elem_of_filter in Ht' as [_ ?].
Qed.

(** [as_poly] followed by [terms]: value and shape of the term list. *)
Lemma as_poly_terms env e gs p :
  as_poly e gs = Some p →
  gens p = gs ∧ uniform (length gs) (terms p)
  ∧ terms_eval env gs (terms p) == evalf env e.
Proof.
  unfold as_poly. destruct (expand gs e) as [r|] eqn:He; simpl; [|done].
  intros [= <-]. simpl. split; [done|]. split.
  - apply (uniform_terms (mkPoly gs r)). simpl. by eapply uniform_expand.
  - rewrite (terms_sound env (mkPoly gs r)). simpl. by apply expand_sound.
Qed.

(** An expression without symbols is a constant polynomial. *)
Lemma expand_closed gs e : atoms e = [] → is_Some (expand gs e).
Proof.
  induction e as [q|s|a IHa b IHb|a IHa b IHb|a IHa n|a IHa]; simpl; intros H.
  - by eexists.
  - done.
  - apply app_eq_nil in H as [Ha Hb].
    destruct (IHa Ha) as [pa ->], (IHb Hb) as [pb ->]. by eexists.
  - apply app_eq_nil in H as [Ha Hb].
    destruct (IHa Ha) as [pa ->], (IHb Hb) as [pb ->]. by eexists.
  - destruct (IHa H) as [pa ->]. by eexists.
  - rewrite H. by eexists.
Qed.

Lemma as_poly_None_atoms e gs : as_poly e gs = None → atoms e ≠ [].
Proof.
  unfold as_poly. intros H Hnil.
  destruct (expand_closed gs e Hnil) as [p Hp]. by rewrite Hp in H.
Qed.

End SympyFacts.

(** * Facts about the translation *)

Section TranslationFacts.
Import Sympy SympyFacts.
#[local] Open Scope Q_scope.

Lemma value_mul venv a b :
  Pyomo.value venv (Pyomo.mul a b) == Pyomo.value venv a * Pyomo.value venv b.
Proof. destruct a, b; simpl; reflexivity. Qed.

Lemma value_add venv a b :
  Pyomo.value venv (Pyomo.add a b) == Pyomo.value venv a + Pyomo.value venv b.
Proof.
  destruct a as [x| | |], b as [y| | |]; simpl; try reflexivity;
    match goal with
    | |- context [Qeq_bool ?z 0] =>
        destruct (Qeq_bool z 0) eqn:Hz; simpl; [|reflexivity];
        apply Qeq_bool_eq in Hz; rewrite Hz; ring
    end.
Qed.

Lemma value_foldl_mul venv f fs :
  Pyomo.value venv (foldl Pyomo.mul f fs) == Pyomo.value venv f * prod_values venv fs.
Proof.
  revert f. induction fs as [|g fs IH]; intros f; simpl; [ring|].
  rewrite IH, value_mul. ring.
Qed.

Lemma value_foldl_add venv acc ts :
  Pyomo.value venv (foldl Pyomo.add acc ts) == Pyomo.value venv acc + sum_values venv ts.
Proof.
  revert acc. induction ts as [|t ts IH]; intros acc; simpl; [ring|].
  rewrite IH, value_add. ring.
Qed.

Lemma value_py_sum venv ts : Pyomo.value venv (py_sum ts) == sum_values venv ts.
Proof. unfold py_sum. rewrite value_foldl_add. simpl. ring. Qed.

Lemma prod_values_app venv l1 l2 :
  prod_values venv (l1 ++ l2) == prod_values venv l1 * prod_values venv l2.
Proof.
  induction l1 as [|e l1 IH]; simpl; [ring|]. rewrite IH. ring.
Qed.

Lemma prod_values_replicate venv n v :
  prod_values venv (replicate n (Pyomo.Ref v)) == qpow (venv (Pyomo.var_name v)) n.
Proof. induction n as [|n IH]; simpl; [reflexivity | by rewrite IH]. Qed.

Lemma foldl_extend {A B} (f : B → list A) (acc : list A) (l : list B) :
  foldl (λ factors x, factors ++ f x) acc l = acc ++ concat (map f l).
Proof.
  revert acc. induction l as [|x l IH]; intros acc; simpl.
  - by rewrite app_nil_r.
  - by rewrite IH, app_assoc.
Qed.

(** The filter on non-zero exponents drops empty repetitions only. *)
Lemma make_factors_expanded variables exponents :
  make_factors variables exponents = expanded_factors variables exponents.
Proof.
  unfold make_factors, expanded_factors. rewrite foldl_extend. simpl.
  revert exponents. induction variables as [|v vs IH]; intros [|n m]; simpl; try done.
  rewrite filter_cons. simpl. case_decide as Hn; simpl.
  - by rewrite IH.
  - assert (n = 0%nat) as -> by lia. simpl. apply IH.
Qed.

Lemma prod_values_expanded env venv gs variables exponents :
  Forall2 (λ g v, venv (Pyomo.var_name v) == env g) gs variables →
  prod_values venv (expanded_factors variables exponents) == monom_eval env gs exponents.
Proof.
  intros H. revert exponents. unfold expanded_factors.
  induction H as [|g v gs vs Hgv H IH]; intros [|n m]; simpl; try reflexivity.
  rewrite prod_values_app, prod_values_replicate, IH, Hgv. reflexivity.
Qed.

Lemma forallb_zero (m : list nat) :
  forallb (λ e, Nat.eqb e 0) m = true ↔ Forall (λ e, e = 0%nat) m.
Proof.
  rewrite forallb_forall, Forall_forall. split; intros H e He.
  - apply Nat.eqb_eq, H. by apply list_elem_of_In.
  - apply Nat.eqb_eq, H. by apply list_elem_of_In.
Qed.

Lemma all_zero_replicate (m : list nat) :
  Forall (λ e, e = 0%nat) m → m = replicate (length m) 0%nat.
Proof. induction 1 as [|e m -> _ IH]; simpl; [done | by f_equal]. Qed.

Lemma expanded_factors_nonempty variables exponents :
  length variables = length exponents →
  ¬ Forall (λ e, e = 0%nat) exponents →
  expanded_factors variables exponents ≠ [].
Proof.
  unfold expanded_factors. revert exponents.
  induction variables as [|v vs IH]; intros [|n m] Hlen Hnz; simpl in *; try done.
  - destruct Hnz. constructor.
  - destruct n as [|n]; simpl; [|done].
    apply IH; [lia|]. intros Hm. apply Hnz. by constructor.
Qed.

(** One round of the loop: the term it appends. *)
Lemma make_term_realises variables (t : Term) :
  length (fst t) = length variables →
  ∃ e, make_term variables t = Return e ∧ realises variables t e.
Proof.
  intros Hlen. destruct t as [m c]. unfold make_term. simpl in *.
  destruct (forallb (λ e, Nat.eqb e 0) m) eqn:Hz.
  - apply forallb_zero in Hz. eexists. split; [done | by constructor].
  - assert (¬ Forall (λ e, e = 0%nat) m) as Hnz.
    { intros H. apply forallb_zero in H. congruence. }
    rewrite make_factors_expanded.
    destruct (expanded_factors variables m) as [|f fs] eqn:Hf.
    { exfalso. by eapply expanded_factors_nonempty. }
    eexists. split; [done | by constructor].
Qed.

Lemma realises_value env venv gs variables (t : Term) e :
  Forall2 (λ g v, venv (Pyomo.var_name v) == env g) gs variables →
  realises variables t e →
  Pyomo.value venv e == snd t * monom_eval env gs (fst t).
Proof.
  intros Hgv [m c Hz|m c f fs Hnz Hf]; cbn [fst snd].
  - rewrite (all_zero_replicate m Hz), monom_eval_zeros. simpl. ring.
  - rewrite value_mul, value_foldl_mul.
    rewrite <- (prod_values_expanded env venv gs variables m Hgv), Hf. simpl. ring.
Qed.

Lemma mapM_Return {A B} (f : A → Result B) (l : list A) :
  Forall (λ x, is_Return (f x)) l →
  ∃ ys, mapM f l = Return ys ∧ Forall2 (λ x y, f x = Return y) l ys.
Proof.
  induction 1 as [|x l [y Hy] _ [ys [Hys HF]]]; simpl.
  - exists []. split; [done | constructor].
  - exists (y :: ys). split; [|by constructor].
    rewrite Hy. simpl. rewrite Hys. done.
Qed.

Lemma mapM_make_term variables (ts : list Term) :
  uniform (length variables) ts →
  ∃ es, mapM (make_term variables) ts = Return es
        ∧ Forall2 (realises variables) ts es.
Proof.
  induction 1 as [|t ts Ht _ [es [Hes HF]]]; simpl.
  - exists []. split; [done | constructor].
  - destruct (make_term_realises variables t Ht) as [e [He Hr]].
    exists (e :: es). split; [|by constructor].
    rewrite He. simpl. rewrite Hes. done.
Qed.

Lemma sum_values_realises env venv gs variables (ts : list Term) es :
  Forall2 (λ g v, venv (Pyomo.var_name v) == env g) gs variables →
  Forall2 (realises variables) ts es →
  sum_values venv es == terms_eval env gs ts.
Proof.
  intros Hgv. induction 1 as [|t e ts es Hr _ IH]; [reflexivity|].
  rewrite terms_eval_cons. simpl.
  rewrite (realises_value env venv gs variables t e Hgv Hr), IH. reflexivity.
Qed.

Lemma elem_of_sorted_symbols s expr : s ∈ sorted_symbols expr ↔ s ∈ atoms expr.
Proof.
  unfold sorted_symbols. rewrite merge_sort_Permutation. apply elem_of_remove_dups.
Qed.

Lemma sorted_symbols_nil expr : sorted_symbols expr = [] ↔ atoms expr = [].
Proof.
  split; intros H.
  - destruct (atoms expr) as [|s l] eqn:Ha; [done|].
    assert (s ∈ sorted_symbols expr) as Hs.
    { apply elem_of_sorted_symbols. rewrite Ha. by left. }
    rewrite H in Hs. by apply elem_of_nil in Hs.
  - unfold sorted_symbols. by rewrite H.
Qed.

Lemma lookup_variables_Return (d : gmap string Pyomo.Var) (symbols : list string) :
  Forall (λ s, is_Some (d !! s)) symbols →
  ∃ variables, lookup_variables d symbols = Return variables
               ∧ Forall2 (λ s v, d !! s = Some v) symbols variables.
Proof.
  intros H. unfold lookup_variables.
  edestruct (mapM_Return
    (λ s, match d !! s with Some v => Return v | None => Raise (KeyError s) end)
    symbols) as [vs [Hvs HF]].
  - eapply Forall_impl; [exact H|]. intros s [v Hv]. rewrite Hv. by exists v.
  - exists vs. split; [done|]. eapply Forall2_impl; [exact HF|].
    intros s v. simpl. destruct (d !! s); [by intros [= ->] | done].
Qed.

End TranslationFacts.

(** The two shapes of a translation: the float of an expression without
    symbols, or the sum of the realised terms of its polynomial. *)
Lemma make_pyomo_poly_shape (self : PyomoSolver) (expr : Sympy.Expr) :
  Forall (λ s, is_Some (_pyomo_variables self !! s)) (Sympy.atoms expr) →
  is_Some (Sympy.as_poly expr (sorted_symbols expr)) →
  ∃ p, _make_pyomo_poly self expr = Return p
       ∧ ((Sympy.atoms expr = [] ∧ p = Pyomo.Float (Sympy.float expr))
          ∨ (Sympy.atoms expr ≠ []
             ∧ ∃ polynomial variables ts,
                 Sympy.as_poly expr (sorted_symbols expr) = Some polynomial
                 ∧ Forall2 (λ s v, _pyomo_variables self !! s = Some v)
                           (sorted_symbols expr) variables
                 ∧ Forall2 (realises variables) (Sympy.terms polynomial) ts
                 ∧ p = py_sum ts)).
Proof.
  intros Hcover [polynomial Hpoly]. unfold _make_pyomo_poly.
  destruct (lookup_variables_Return (_pyomo_variables self) (sorted_symbols expr))
    as [variables [Hvs Hbound]].
  { rewrite Forall_forall in *. intros s Hs. apply Hcover.
    by apply elem_of_sorted_symbols. }
  rewrite Hvs. simpl. case_decide as Hlen.
  - apply length_zero_iff_nil, sorted_symbols_nil in Hlen.
    eexists. split; [done|]. by left.
  - rewrite Hpoly.
    destruct (SympyFacts.as_poly_terms (λ _, 0%Q) expr _ polynomial Hpoly)
      as (_ & Hunif & _).
    rewrite (Forall2_length _ _ _ Hbound) in Hunif.
    destruct (mapM_make_term variables _ Hunif) as [ts [Hts Hreal]].
    rewrite Hts. simpl. eexists. split; [done|]. right. split.
    + intros Hnil. apply Hlen. apply sorted_symbols_nil in Hnil. by rewrite Hnil.
    + by exists polynomial, variables, ts.
Qed.

(** Bound variables take the values of their symbols at agreeing
    assignments. *)
Lemma agree_bound (d : gmap string Pyomo.Var) expr env venv variables :
  agree d expr env venv →
  Forall2 (λ s v, d !! s = Some v) (sorted_symbols expr) variables →
  Forall2 (λ g v, (venv (Pyomo.var_name v) == env g)%Q) (sorted_symbols expr) variables.
Proof.
  intros Hagree Hbound.
  assert (∀ s, s ∈ sorted_symbols expr → s ∈ Sympy.atoms expr) as Hin
    by (intros s; apply elem_of_sorted_symbols).
  induction Hbound as [|s v ss vs Hsv _ IH]; constructor.
  - apply Hagree; [|done]. apply Hin. by left.
  - apply IH. intros s' Hs'. apply Hin. by right.
Qed.

(** The sum of the realised terms has the value of the expression. *)
Lemma realised_sum_value (d : gmap string Pyomo.Var) expr polynomial variables ts env venv :
  Sympy.as_poly expr (sorted_symbols expr) = Some polynomial →
  Forall2 (λ s v, d !! s = Some v) (sorted_symbols expr) variables →
  Forall2 (realises variables) (Sympy.terms polynomial) ts →
  agree d expr env venv →
  (Pyomo.value venv (py_sum ts) == Sympy.evalf env expr)%Q.
Proof.
  intros Hpoly Hbound Hreal Hagree. rewrite value_py_sum.
  destruct (SympyFacts.as_poly_terms env expr _ polynomial Hpoly) as (_ & _ & <-).
  apply (sum_values_realises env venv _ variables); [|done].
  by apply (agree_bound d).
Qed.

(** C1. Polynomial translation is correct: for an expression that
    reduces to a polynomial over its symbols and a binding that covers all
    of them, [_make_pyomo_poly] returns a solver expression whose value at
    every assignment equals the value of the input at the corresponding
    assignment of the symbols (floats idealised as exact rationals). When
    the expression has symbols, the result is the sum of the realised
    terms of the polynomial: a term without variables as the bare number,
    any other term as the coefficient times a product in which a variable
    of exponent [n] occurs as [n] factors. *)
Theorem make_pyomo_poly_equivalent (self : PyomoSolver) (expr : Sympy.Expr) :
  Forall (λ s, is_Some (_pyomo_variables self !! s)) (Sympy.atoms expr) →
  is_Some (Sympy.as_poly expr (sorted_symbols expr)) →
  ∃ p, _make_pyomo_poly self expr = Return p
       ∧ (∀ env venv, agree (_pyomo_variables self) expr env venv →
            (Pyomo.value venv p == Sympy.evalf env expr)%Q)
       ∧ (Sympy.atoms expr ≠ [] →
            ∃ polynomial variables ts,
              Sympy.as_poly expr (sorted_symbols expr) = Some polynomial
              ∧ Forall2 (λ s v, _pyomo_variables self !! s = Some v)
                        (sorted_symbols expr) variables
              ∧ Forall2 (realises variables) (Sympy.terms polynomial) ts
              ∧ p = py_sum ts).
Proof.
  intros Hcover Hpoly.
  destruct (make_pyomo_poly_shape self expr Hcover Hpoly) as (p & Hp & Hshape).
  exists p. split; [exact Hp|].
  destruct Hshape as [[Hnil ->]|[Hsym (polynomial & variables & ts & Has & Hb & Hr & ->)]].
  - split; [|done]. intros env venv _. simpl.
    by rewrite (SympyFacts.evalf_closed env expr Hnil).
  - split.
    + intros env venv Hagree.
      by apply (realised_sum_value (_pyomo_variables self) expr polynomial variables).
    + intros _. by exists polynomial, variables, ts.
Qed.

(** * Facts about the methods *)

Section MethodFacts.

Lemma bind_Return {A B} (m : Method A) (f : A → Method B) self r :
  (m ≫= f) self = Return r ↔ ∃ a self1, m self = Return (a, self1) ∧ f a self1 = Return r.
Proof.
  unfold mbind, Method_bind. destruct (m self) as [[a self1]|e]; split.
  - intros H. by exists a, self1.
  - by intros (a' & s' & [= <- <-] & H).
  - done.
  - by intros (a' & s' & [=] & _).
Qed.

Lemma bind_Raise_l {A B} (m : Method A) (f : A → Method B) self e :
  m self = Raise e → (m ≫= f) self = Raise e.
Proof. unfold mbind, Method_bind. by intros ->. Qed.

Lemma bind_Return_l {A B} (m : Method A) (f : A → Method B) self a self1 :
  m self = Return (a, self1) → (m ≫= f) self = f a self1.
Proof. unfold mbind, Method_bind. by intros ->. Qed.

Lemma frame_bind {A B} (m : Method A) (f : A → Method B) :
  frame m → (∀ a, frame (f a)) → frame (m ≫= f).
Proof.
  intros Hm Hf self b self' H. apply bind_Return in H as (a & self1 & H1 & H2).
  apply Hm in H1 as [H1a H1b]. apply Hf in H2 as [H2a H2b]. split; congruence.
Qed.

Lemma frame_ret {A} (a : A) : frame (mret a).
Proof. by intros self a' self' [= <- <-]. Qed.

Lemma frame_raise {A} e : frame (raise (A:=A) e).
Proof. by intros self a self' [=]. Qed.

Lemma frame_reading {A} (f : PyomoSolver → Result A) : frame (reading f).
Proof.
  intros self a self'. unfold reading. destruct (f self); [|done].
  by intros [= <- <-].
Qed.

Lemma frame_update_model (g : PyomoSolver → Pyomo.ConcreteModel) :
  frame (update (λ self, set_model (g self) self)).
Proof. by intros self a self' [= <- <-]. Qed.

Lemma frame_add_var : frame _add_var.
Proof. by intros self a self' [= <- <-]. Qed.

Lemma frame_get_constraint_name : frame _get_constraint_name.
Proof. by intros self a self' [= <- <-]. Qed.

Lemma frame_attach_constraint name expr : frame (attach_constraint name expr).
Proof.
  destruct expr; simpl; [apply frame_raise|].
  apply (frame_update_model (λ self, Pyomo.setattr (_model self) name _)).
Qed.

Lemma frame_add_constraint c : frame (_add_constraint c).
Proof.
  assert (∀ o, frame (_add_constraint (Optimization.Bare o))) as Hbare.
  { intros [r|repr]; simpl; [|apply frame_raise].
    apply frame_bind; [apply frame_reading|]. intros expr.
    apply frame_bind; [apply frame_get_constraint_name|]. intros name.
    apply frame_attach_constraint. }
  destruct c; try apply frame_raise; apply Hbare.
Qed.

Lemma frame_for_each {A} (f : A → Method unit) l :
  (∀ x, frame (f x)) → frame (for_each f l).
Proof.
  intros Hf. induction l as [|x l IH]; simpl; [apply frame_ret|].
  apply frame_bind; [apply Hf | done].
Qed.

Lemma frame_set_objective problem : frame (_set_objective problem).
Proof.
  unfold _set_objective. apply frame_bind; [apply frame_reading|]. intros expr.
  apply (frame_update_model (λ self, Pyomo.setattr (_model self) "obj" _)).
Qed.

Lemma frame_bind_variables vs d : frame (bind_variables vs d).
Proof.
  revert d. induction vs as [|v vs IH]; intros d; simpl; [apply frame_ret|].
  apply frame_bind; [apply frame_add_var | intros; apply IH].
Qed.

Lemma var_label_inj i j : var_label i = var_label j → i = j.
Proof.
  unfold var_label. intros H. apply (inj (String.app "v")) in H.
  by apply (inj pretty) in H.
Qed.

(** The dictionary comprehension: it always returns, each variable name
    not rebound later is bound to the variable declared at its turn, the
    other keys are untouched, and the model gains exactly the declared
    variables. *)
Lemma bind_variables_spec vs d self :
  ∃ d' self',
    bind_variables vs d self = Return (d', self')
    ∧ _var_counter self' = (_var_counter self + length vs)%nat
    ∧ Pyomo.components (_model self')
      = Pyomo.components (_model self)
        ++ map (λ i, (var_label i, Pyomo.VarComponent (Pyomo.Var_default (var_label i))))
               (seq (S (_var_counter self)) (length vs))
    ∧ (∀ n, n ∉ Optimization.name <$> vs → d' !! n = d !! n)
    ∧ (NoDup (Optimization.name <$> vs) →
       ∀ i v, vs !! i = Some v →
         d' !! Optimization.name v
         = Some (Pyomo.Var_default (var_label (_var_counter self + S i)))).
Proof.
  revert d self. induction vs as [|v vs IH]; intros d self; simpl.
  - exists d, self. split; [done|]. split; [lia|]. split; [by rewrite app_nil_r|].
    split; [done|]. intros _ i v Hi. by rewrite lookup_nil in Hi.
  - unfold mbind, Method_bind. simpl.
    edestruct IH as (d' & self' & -> & Hc & Hm & Hother & Hbound).
    exists d', self'. split; [done|]. simpl in *.
    split; [lia|]. split; [by rewrite Hm, <- app_assoc|]. split.
    + intros n Hn. rewrite not_elem_of_cons in Hn. destruct Hn as [Hnv Hn].
      rewrite Hother by done. by rewrite lookup_insert_ne.
    + intros Hnd i w Hi. apply NoDup_cons in Hnd as [Hv Hnd].
      destruct i as [|i]; simpl in Hi.
      * injection Hi as <-. rewrite Hother by done.
        rewrite lookup_insert_eq. by rewrite Nat.add_1_r.
      * rewrite (Hbound Hnd i w Hi). do 3 f_equal. lia.
Qed.

Lemma bind_variables_dom vs d self d' self' :
  bind_variables vs d self = Return (d', self') →
  dom d' = dom d ∪ list_to_set (Optimization.name <$> vs).
Proof.
  revert d self. induction vs as [|v vs IH]; intros d self; simpl.
  - intros [= <- <-]. simpl. by rewrite (right_id_L ∅ (∪)).
  - unfold mbind, Method_bind. simpl. intros H. apply IH in H.
    rewrite H, dom_insert_L. simpl.
    by rewrite (comm_L (∪) {[Optimization.name v]} (dom d)), <- (assoc_L (∪)).
Qed.

End MethodFacts.

(** * Facts about [solve] and the binding *)

Section SolveFacts.

Variable opt_solve : Pyomo.OptSolver → Pyomo.ConcreteModel → Result Pyomo.SolverResults.

Lemma build_model_Return problem self u self1 :
  build_model problem self = Return (u, self1) →
  _solver self1 = _solver self
  ∧ dom (_pyomo_variables self1)
    = list_to_set (Optimization.name <$> Optimization.variables problem).
Proof.
  unfold build_model. intros H.
  apply bind_Return in H as ([] & s1 & [= <-] & H).
  apply bind_Return in H as ([] & s2 & [= <-] & H).
  apply bind_Return in H as ([] & s3 & [= <-] & H).
  apply bind_Return in H as (d & s4 & Hd & H).
  apply bind_Return in H as ([] & s5 & [= <-] & H).
  apply bind_Return in H as ([] & s6 & Hobj & H).
  pose proof (frame_bind_variables _ _ _ _ _ Hd) as [Hs4 _].
  apply bind_variables_dom in Hd.
  apply frame_set_objective in Hobj as [Hs6 Hv6].
  apply (frame_for_each _add_constraint _ frame_add_constraint) in H as [Hs1 Hv1].
  split.
  - rewrite Hs1, Hs6. simpl. by rewrite Hs4.
  - rewrite Hv1, Hv6. simpl. by rewrite Hd, dom_empty_L, (left_id_L ∅ (∪)).
Qed.

Lemma run_solver_Return self result self' :
  run_solver opt_solve self = Return (result, self') →
  self' = self
  ∧ ∃ opt, _solver self = Some opt ∧ opt_solve opt (_model self) = Return result.
Proof.
  unfold run_solver. destruct (_solver self) as [opt|]; [|done].
  destruct (opt_solve opt (_model self)) as [r|e] eqn:Hr; [|done].
  intros [= <- <-]. split; [done|]. by exists opt.
Qed.

Lemma read_solution_Return result self m self' :
  read_solution result self = Return (m, self') →
  Pyomo.Status result = Pyomo.optimal
  ∧ m = (λ v, Pyomo.Variable_values result !! Pyomo.var_name v) <$> _pyomo_variables self.
Proof.
  unfold read_solution. case_decide as Hst; [|done].
  intros [= <- <-]. done.
Qed.

(** The shape of a successful [solve]. *)
Lemma solve_Return problem self m self' :
  solve opt_solve problem self = Return (m, self') →
  ∃ self1 opt result,
    build_model problem self = Return ((), self1)
    ∧ _solver self = Some opt
    ∧ opt_solve opt (_model self1) = Return result
    ∧ Pyomo.Status result = Pyomo.optimal
    ∧ m = (λ v, Pyomo.Variable_values result !! Pyomo.var_name v)
          <$> _pyomo_variables self1.
Proof.
  unfold solve. intros H.
  apply bind_Return in H as ([] & self1 & Hb & H).
  apply bind_Return in H as (result & self2 & Hr & H).
  apply run_solver_Return in Hr as (-> & opt & Hopt & Hr).
  apply read_solution_Return in H as [Hst ->].
  exists self1, opt, result. repeat split; try done.
  apply build_model_Return in Hb as [<- _]. done.
Qed.

(** C2. Round trip of the variable identities: when [solve] returns, the
    keys of the returned mapping are exactly the problem's variables. *)
Theorem solve_keys problem self m self' :
  solve opt_solve problem self = Return (m, self') →
  dom m = list_to_set (Optimization.name <$> Optimization.variables problem).
Proof.
  intros H. apply solve_Return in H as (self1 & opt & result & Hb & _ & _ & _ & ->).
  rewrite dom_fmap_L. by apply build_model_Return in Hb as [_ ->].
Qed.

(** C3. A status other than [optimal] is an error: once the model is
    built and the solver has reported a status that is not [optimal],
    [solve] raises [SolverError] with the status in its message, and
    returns no mapping. *)
Theorem solve_rejects_non_optimal problem self self1 opt result :
  build_model problem self = Return ((), self1) →
  _solver self = Some opt →
  opt_solve opt (_model self1) = Return result →
  Pyomo.Status result ≠ Pyomo.optimal →
  solve opt_solve problem self
  = Raise (SolverError (Format "pyomo solution status is '{0}'"
                               [ArgStatus (Pyomo.Status result)]))
  ∧ ∀ m self', solve opt_solve problem self ≠ Return (m, self').
Proof.
  intros Hb Hopt Hr Hst.
  assert (solve opt_solve problem self
          = Raise (SolverError (status_message (Pyomo.Status result)))) as Hs.
  { unfold solve. rewrite (bind_Return_l _ _ _ _ _ Hb).
    assert (run_solver opt_solve self1 = Return (result, self1)) as Hrun.
    { unfold run_solver. apply build_model_Return in Hb as [-> _].
      by rewrite Hopt, Hr. }
    rewrite (bind_Return_l _ _ _ _ _ Hrun).
    unfold read_solution. by case_decide. }
  split; [exact Hs|]. intros m self'. by rewrite Hs.
Qed.

End SolveFacts.

(** C5 (as amended). Variable binding declares exactly one solver variable
    per problem variable and binds distinct problem variables to distinct
    solver variables; every solver variable is declared with Pyomo's
    defaults (no bounds, domain [Reals]). *)
Theorem bind_variables_bijective (vs : list Optimization.Variable_) (self : PyomoSolver) :
  NoDup (Optimization.name <$> vs) →
  ∃ d self',
    bind_variables vs ∅ self = Return (d, self')
    ∧ dom d = list_to_set (Optimization.name <$> vs)
    ∧ (∀ n1 n2 pv, d !! n1 = Some pv → d !! n2 = Some pv → n1 = n2)
    ∧ length (Pyomo.components (_model self'))
      = (length (Pyomo.components (_model self)) + length vs)%nat
    ∧ (∀ v, v ∈ vs →
         ∃ pv, d !! Optimization.name v = Some pv
               ∧ (Pyomo.var_name pv, Pyomo.VarComponent pv)
                 ∈ Pyomo.components (_model self')
               ∧ Pyomo.var_lb pv = None
               ∧ Pyomo.var_ub pv = None
               ∧ Pyomo.var_domain pv = Pyomo.Reals).
Proof.
  intros Hnd.
  destruct (bind_variables_spec vs ∅ self) as (d & self' & Hd & Hc & Hm & Hother & Hbound).
  specialize (Hbound Hnd).
  assert (∀ n pv, d !! n = Some pv →
            ∃ i v, vs !! i = Some v ∧ n = Optimization.name v) as Hkey.
  { intros n pv Hn.
    destruct (decide (n ∈ Optimization.name <$> vs)) as [Hin|Hout].
    - apply list_elem_of_fmap in Hin as (v & -> & Hv).
      apply list_elem_of_lookup in Hv as [i Hi]. by exists i, v.
    - rewrite (Hother n Hout), lookup_empty in Hn. done. }
  exists d, self'. split; [done|]. split; [|split; [|split]].
  - apply (bind_variables_dom _ _ _ _ _) in Hd.
    by rewrite Hd, dom_empty_L, (left_id_L ∅ (∪)).
  - intros n1 n2 pv H1 H2.
    destruct (Hkey n1 pv H1) as (i & v & Hi & ->).
    destruct (Hkey n2 pv H2) as (j & w & Hj & ->).
    rewrite (Hbound i v Hi) in H1. rewrite (Hbound j w Hj) in H2.
    assert (i = j) as <-.
    { rewrite <- H2 in H1. apply (inj Some) in H1.
      apply (f_equal Pyomo.var_name) in H1. simpl in H1.
      apply var_label_inj in H1. lia. }
    congruence.
  - rewrite Hm, length_app, length_map, length_seq. done.
  - intros v Hv. apply list_elem_of_lookup in Hv as [i Hi].
    eexists. split; [by apply (Hbound i v Hi)|]. simpl. split; [|done].
    rewrite Hm. apply elem_of_app. right.
    apply (list_elem_of_fmap_2
      (λ i, (var_label i, Pyomo.VarComponent (Pyomo.Var_default (var_label i))))).
    apply elem_of_seq. apply lookup_lt_Some in Hi. lia.
Qed.

(** * Relations and constraint dispatch *)

Section RelationFacts.
#[local] Open Scope Q_scope.

Lemma holds_compare venv op a b :
  Pyomo.holds venv (Pyomo.compare op a b)
  ↔ Pyomo.compare_holds op (Pyomo.value venv a) (Pyomo.value venv b).
Proof.
  destruct a, b; simpl; try reflexivity.
  destruct op; simpl; [apply Qle_bool_iff | apply Qle_bool_iff | apply Qeq_bool_iff].
Qed.


End RelationFacts.









(** C4. Strict and unsupported relations are rejected: a relation whose
    class is not [LessThan], [GreaterThan] or [Equality] makes
    [_make_pyomo_relation] raise [PyomoExpressionError], whatever its two
    sides are: with the message that strict inequalities are not allowed
    for a strict class, and otherwise with a message that is formatted
    with the expression and its type. *)
Theorem make_pyomo_relation_rejects (self : PyomoSolver) (r : Sympy.Rel) :
  comparator_of (Sympy.rel_class r) = None →
  _make_pyomo_relation self r
  = Raise (PyomoExpressionError
             (if strict (Sympy.rel_class r)
              then Format "Strict inequalities are not allowed." []
              else cannot_be_translated r))
  ∧ args (cannot_be_translated r) = [ArgRel r; ArgType (Sympy.rel_class r)]
  ∧ ∀ c, _make_pyomo_relation self r ≠ Return c.
Proof.
  intros Hc.
  assert (_make_pyomo_relation self r
          = Raise (PyomoExpressionError
                     (if strict (Sympy.rel_class r)
                      then strict_not_allowed else cannot_be_translated r))) as Hr.
  { unfold _make_pyomo_relation.
    destruct (Sympy.rel_class r); simpl in *; try discriminate; reflexivity. }
  split; [exact Hr|]. split; [reflexivity|]. intros c. by rewrite Hr.
Qed.

(** C7. Constraint kinds without a translation fail at once: dispatching
    an ordered-set constraint of type 1 or of type 2 raises
    [NotImplementedError] and leaves no trace of having been ignored, and
    so does every object that is neither a relation nor an ordered-set
    constraint. *)
Theorem add_constraint_not_implemented (self : PyomoSolver)
    (vs : list Optimization.Variable_) (repr : string) :
  _add_constraint (Optimization.SOS1Constraint vs) self = Raise NotImplementedError
  ∧ _add_constraint (Optimization.SOS2Constraint vs) self = Raise NotImplementedError
  ∧ _add_constraint (Optimization.OtherObject repr) self = Raise NotImplementedError
  ∧ _add_constraint (Optimization.Bare (Optimization.NotRel repr)) self
    = Raise NotImplementedError
  ∧ _add_constraint (Optimization.RelConstraint (Optimization.NotRel repr)) self
    = Raise NotImplementedError.
Proof. repeat split. Qed.

(** A constraint that fails to dispatch makes the whole [solve] fail. *)
Lemma for_each_Raise {A} (f : A → Method unit) (l : list A) self :
  (∃ x, x ∈ l ∧ ∀ s, is_Raise (f x s)) → is_Raise (for_each f l self).
Proof.
  intros (x & Hx & Hf). revert self. induction l as [|y l IH]; intros self.
  - by apply elem_of_nil in Hx.
  - simpl. unfold mbind, Method_bind.
    destruct (f y self) as [[[] self1]|e] eqn:Hy; [|by exists e].
    apply elem_of_cons in Hx as [->|Hx].
    + destruct (Hf self) as [e He]. congruence.
    + by apply IH.
Qed.

(** C10. An expression that is not a polynomial in its symbols is
    rejected: [_make_pyomo_poly] raises a [ValueError] that names the
    expression, and a [solve] whose objective is such an expression raises
    the same error instead of returning a mapping. *)
Theorem make_pyomo_poly_rejects (expr : Sympy.Expr) :
  Sympy.as_poly expr (sorted_symbols expr) = None →
  (∀ self, Forall (λ s, is_Some (_pyomo_variables self !! s)) (Sympy.atoms expr) →
     _make_pyomo_poly self expr
     = Raise (ValueError (Format "{} is not a sympy polynomial" [ArgExpr expr])))
  ∧ (∀ opt_solve problem self,
       Optimization.objective problem = expr →
       Forall (λ s, s ∈ Optimization.name <$> Optimization.variables problem)
              (Sympy.atoms expr) →
       solve opt_solve problem self
       = Raise (ValueError (Format "{} is not a sympy polynomial" [ArgExpr expr]))).
Proof.
  intros Hpoly. pose proof (SympyFacts.as_poly_None_atoms _ _ Hpoly) as Hatoms.
  assert (∀ self, Forall (λ s, is_Some (_pyomo_variables self !! s)) (Sympy.atoms expr) →
     _make_pyomo_poly self expr = Raise (ValueError (not_a_polynomial expr))) as Hrej.
  { intros self Hcover. unfold _make_pyomo_poly.
    destruct (lookup_variables_Return (_pyomo_variables self) (sorted_symbols expr))
      as [variables [-> _]].
    { rewrite Forall_forall in *. intros s Hs. apply Hcover.
      by apply elem_of_sorted_symbols. }
    simpl. case_decide as Hlen.
    - apply length_zero_iff_nil, sorted_symbols_nil in Hlen. done.
    - by rewrite Hpoly. }
  split; [exact Hrej|].
  intros opt_solve problem self Hobj Hvars.
  unfold solve. apply bind_Raise_l. unfold build_model.
  do 3 (erewrite bind_Return_l; [|reflexivity]).
  destruct (bind_variables_spec (Optimization.variables problem) ∅
              (set_model Pyomo.ConcreteModel_new
                 (set_var_counter 0 (set_constraint_counter 0 self))))
    as (d & s4 & Hd & _).
  rewrite (bind_Return_l _ _ _ _ _ Hd).
  erewrite bind_Return_l; [|reflexivity].
  apply bind_Raise_l. unfold _set_objective. apply bind_Raise_l.
  unfold reading. rewrite Hobj, Hrej; [done|]. simpl.
  apply bind_variables_dom in Hd.
  eapply Forall_impl; [exact Hvars|]. intros s Hs. simpl in Hs.
  apply elem_of_dom. rewrite Hd, dom_empty_L, (left_id_L ∅ (∪)).
  by apply elem_of_list_to_set.
Qed.

(** * Solver resolution *)

Lemma PyomoSolver_init_Return SolverFactory solver io :
  PyomoSolver_init SolverFactory solver io
  = Return (mkPyomoSolver (SolverFactory solver io) 0 0 Pyomo.ConcreteModel_new ∅).
Proof. reflexivity. Qed.

(** The handler of the loop: a candidate whose constructor raises
    [SolverNotAvailableError] is passed over. *)
Lemma get_solver_from_skip funcs name names f :
  funcs !! name = Some f → f () = Raise SolverNotAvailableError →
  get_solver_from funcs (name :: names) = get_solver_from funcs names.
Proof. intros Hf Hr. simpl. by rewrite Hf, Hr. Qed.

Lemma get_solver_from_first funcs name names f s :
  funcs !! name = Some f → f () = Return s →
  get_solver_from funcs (name :: names) = Return (Some s).
Proof. intros Hf Hr. simpl. by rewrite Hf, Hr. Qed.

(** When every constructor raises [SolverNotAvailableError], the loop ends
    and [None] is returned. *)
Lemma get_solver_from_exhausted funcs names :
  Forall (λ name, ∃ f, funcs !! name = Some f ∧ f () = Raise SolverNotAvailableError)
         names →
  get_solver_from funcs names = Return None.
Proof.
  induction 1 as [|name names (f & Hf & Hr) _ IH]; [done|].
  by rewrite (get_solver_from_skip funcs name names f Hf Hr).
Qed.

(** With the constructors of the module, the default order never gets
    past its first name: [PyomoSolver.__init__] stores whatever
    [SolverFactory] hands out and raises nothing. *)
Lemma get_solver_default SolverFactory :
  get_solver SolverFactory DEFAULT_SOLVER_ORDER []
  = Return (Some (mkPyomoSolver (SolverFactory "gurobi" "python") 0 0
                                Pyomo.ConcreteModel_new ∅)).
Proof. reflexivity. Qed.

(** C8. On a machine where gurobi is unavailable and cbc is available,
    [get_solver()], with [solver_order] at its default, does not fall back
    to cbc: it returns the instance built
    for gurobi, which holds no plugin, although constructing the cbc
    instance would have given a plugin. *)
Theorem get_solver_unavailable_primary :
  get_solver Example.only_cbc DEFAULT_SOLVER_ORDER []
  = Return (Some (mkPyomoSolver None 0 0 Pyomo.ConcreteModel_new ∅))
  ∧ PyomoSolver_init Example.only_cbc "cbc" "asl"
    = Return (mkPyomoSolver (Some Example.cbc) 0 0 Pyomo.ConcreteModel_new ∅).
Proof. split; reflexivity. Qed.

(** C9. On a machine where no backend is available, [get_solver()], with
    [solver_order] at its default, raises nothing and does not return
    [None]: it returns an instance without a
    plugin, and the failure only shows as an [AttributeError] when that
    instance is asked to solve a problem. *)
Theorem get_solver_nothing_installed :
  get_solver Example.nothing_installed DEFAULT_SOLVER_ORDER []
  = Return (Some (mkPyomoSolver None 0 0 Pyomo.ConcreteModel_new ∅))
  ∧ ∀ opt_solve,
      solve opt_solve Example.problem1 (mkPyomoSolver None 0 0 Pyomo.ConcreteModel_new ∅)
      = Raise AttributeError.
Proof. split; [reflexivity|]. intros opt_solve. vm_compute. reflexivity. Qed.

(** C5 (as stated) fails: the solver variable bound to a problem variable
    with lower bound [-1] and domain [integer] has no lower bound and the
    domain [Reals]. *)
Lemma bind_variables_drops_metadata :
  ¬ (∀ vs self d self' v pv,
       NoDup (Optimization.name <$> vs) →
       bind_variables vs ∅ self = Return (d, self') →
       v ∈ vs → d !! Optimization.name v = Some pv →
       preserves_metadata v pv).
Proof.
  intros H.
  destruct (H [Example.x_var] Example.fresh_solver
              (<["x" := Pyomo.Var_default "v1"]> ∅)
              (mkPyomoSolver (Some Example.cbc) 0 1
                 (Pyomo.mkModel
                    [("v1", Pyomo.VarComponent (Pyomo.Var_default "v1"))] ∅) ∅)
              Example.x_var (Pyomo.Var_default "v1")) as (Hlb & _).
  - apply NoDup_singleton.
  - reflexivity.
  - by left.
  - reflexivity.
  - discriminate Hlb.
Qed.


(** * The theorems at concrete inputs *)

(** [2*x**2*y + 3] becomes [2.0*((v1*v1)*v2) + 3.0]. *)
Example make_pyomo_poly_poly1 :
  let v1 := Pyomo.Ref (Pyomo.Var_default "v1") in
  let v2 := Pyomo.Ref (Pyomo.Var_default "v2") in
  _make_pyomo_poly Example.bound_solver Example.poly1
  = Return (Pyomo.Sum
              (Pyomo.Prod (Pyomo.Float 2) (Pyomo.Prod (Pyomo.Prod v1 v1) v2))
              (Pyomo.Float 3)).
Proof. vm_compute. reflexivity. Qed.

(** [x <= x + 1]: the difference is the number [-1], and the comparison
    with [0] is the truth value [True], which [_add_constraint] cannot
    attach to the model. *)
Example make_pyomo_relation_constant_difference :
  let r := Sympy.mkRel Sympy.LessThan Example.x (Sympy.Add Example.x (Sympy.Num 1)) in
  _make_pyomo_relation Example.bound_solver r = Return (Pyomo.Trivial true)
  ∧ _add_constraint (Optimization.Bare (Optimization.IsRel r)) Example.bound_solver
    = Raise (ValueError trivial_constraint).
Proof. split; vm_compute; reflexivity. Qed.

(** Minimising [x] subject to [x >= 3] with a backend that answers
    [v1 = 3]: the solution is keyed by [x]. *)
Example solve_problem1 :
  fst <$> solve Example.optimal_at_3 Example.problem1 Example.fresh_solver
  = Return {["x" := Some 3%Q]}.
Proof. vm_compute. reflexivity. Qed.

Lemma make_pyomo_poly_equivalent_witness :
  ∃ p, _make_pyomo_poly Example.bound_solver Example.poly1 = Return p
       ∧ (∀ env venv,
            agree (_pyomo_variables Example.bound_solver) Example.poly1 env venv →
            (Pyomo.value venv p == Sympy.evalf env Example.poly1)%Q)
       ∧ (Sympy.atoms Example.poly1 ≠ [] →
            ∃ polynomial variables ts,
              Sympy.as_poly Example.poly1 (sorted_symbols Example.poly1) = Some polynomial
              ∧ Forall2 (λ s v, _pyomo_variables Example.bound_solver !! s = Some v)
                        (sorted_symbols Example.poly1) variables
              ∧ Forall2 (realises variables) (Sympy.terms polynomial) ts
              ∧ p = py_sum ts).
Proof.
  apply (make_pyomo_poly_equivalent Example.bound_solver Example.poly1).
  - repeat constructor; vm_compute; eauto.
  - vm_compute. eauto.
Defined.

Lemma solve_keys_witness :
  ∃ m self',
    solve Example.optimal_at_3 Example.problem1 Example.fresh_solver = Return (m, self')
    ∧ dom m = list_to_set (Optimization.name <$> Optimization.variables Example.problem1).
Proof.
  assert (∃ r, solve Example.optimal_at_3 Example.problem1 Example.fresh_solver = Return r)
    as [[m self'] H] by (eexists; vm_compute; reflexivity).
  exists m, self'. split; [exact H|].
  exact (solve_keys Example.optimal_at_3 Example.problem1 Example.fresh_solver m self' H).
Defined.

Lemma solve_rejects_non_optimal_witness :
  solve Example.reports_infeasible Example.contradictory Example.fresh_solver
  = Raise (SolverError (Format "pyomo solution status is '{0}'"
                               [ArgStatus Pyomo.infeasible]))
  ∧ ∀ m self',
      solve Example.reports_infeasible Example.contradictory Example.fresh_solver
      ≠ Return (m, self').
Proof.
  assert (∃ self1, build_model Example.contradictory Example.fresh_solver
                   = Return ((), self1))
    as [self1 Hb] by (eexists; vm_compute; reflexivity).
  apply (solve_rejects_non_optimal Example.reports_infeasible Example.contradictory
           Example.fresh_solver self1 Example.cbc
           (Pyomo.mkResults Pyomo.infeasible ∅) Hb).
  - reflexivity.
  - reflexivity.
  - discriminate.
Defined.

Lemma bind_variables_bijective_witness :
  ∃ d self',
    bind_variables [Example.x_var; Example.y_var] ∅ Example.fresh_solver
    = Return (d, self')
    ∧ dom d = list_to_set (Optimization.name <$> [Example.x_var; Example.y_var])
    ∧ (∀ n1 n2 pv, d !! n1 = Some pv → d !! n2 = Some pv → n1 = n2)
    ∧ length (Pyomo.components (_model self'))
      = (length (Pyomo.components (_model Example.fresh_solver)) + 2)%nat
    ∧ (∀ v, v ∈ [Example.x_var; Example.y_var] →
         ∃ pv, d !! Optimization.name v = Some pv
               ∧ (Pyomo.var_name pv, Pyomo.VarComponent pv)
                 ∈ Pyomo.components (_model self')
               ∧ Pyomo.var_lb pv = None
               ∧ Pyomo.var_ub pv = None
               ∧ Pyomo.var_domain pv = Pyomo.Reals).
Proof.
  apply (bind_variables_bijective [Example.x_var; Example.y_var] Example.fresh_solver).
  simpl. apply NoDup_cons. split; [|apply NoDup_singleton].
  rewrite list_elem_of_singleton. discriminate.
Defined.


Lemma make_pyomo_relation_rejects_witness :
  let r := Sympy.mkRel Sympy.StrictLessThan Example.x Example.y in
  _make_pyomo_relation Example.bound_solver r
  = Raise (PyomoExpressionError (Format "Strict inequalities are not allowed." []))
  ∧ args (cannot_be_translated r) = [ArgRel r; ArgType Sympy.StrictLessThan]
  ∧ ∀ c, _make_pyomo_relation Example.bound_solver r ≠ Return c.
Proof.
  intros r. apply (make_pyomo_relation_rejects Example.bound_solver r). reflexivity.
Defined.

Lemma make_pyomo_poly_rejects_witness :
  _make_pyomo_poly Example.bound_solver (Sympy.Abs Example.x)
  = Raise (ValueError (Format "{} is not a sympy polynomial"
                              [ArgExpr (Sympy.Abs Example.x)]))
  ∧ solve Example.optimal_at_3 Example.absolute Example.fresh_solver
    = Raise (ValueError (Format "{} is not a sympy polynomial"
                                [ArgExpr (Sympy.Abs Example.x)])).
Proof.
  destruct (make_pyomo_poly_rejects (Sympy.Abs Example.x)) as [Hpoly Hsolve].
  - reflexivity.
  - split.
    + apply Hpoly. repeat constructor; vm_compute; eauto.
    + apply Hsolve; [reflexivity|]. repeat constructor.
Defined.

(** * Further facts about the translation *)

Section MoreTranslationFacts.
Import Sympy SympyFacts.
#[local] Open Scope Q_scope.

(** X1. An expression without symbols needs no binding: it is translated
    to its float value, whatever the instance holds. *)
Theorem make_pyomo_poly_closed (self : PyomoSolver) (expr : Expr) :
  atoms expr = [] →
  _make_pyomo_poly self expr = Return (Pyomo.Float (float expr)).
Proof.
  intros H. unfold _make_pyomo_poly.
  apply sorted_symbols_nil in H. by rewrite H.
Qed.

Lemma lookup_variables_Raise (d : gmap string Pyomo.Var) (symbols : list string) :
  Exists (λ s, d !! s = None) symbols →
  ∃ s, s ∈ symbols ∧ d !! s = None ∧ lookup_variables d symbols = Raise (KeyError s).
Proof.
  unfold lookup_variables. induction symbols as [|x l IH]; intros H.
  - by apply Exists_nil in H.
  - simpl. destruct (d !! x) as [v|] eqn:Hx.
    + apply Exists_cons in H as [H|H]; [congruence|].
      destruct (IH H) as (s & Hs & Hd & Hr). exists s.
      split; [by right|]. split; [done|]. simpl. by rewrite Hr.
    + exists x. split; [by left|]. done.
Qed.

Lemma lookup_symbols_Raise (d : gmap string Pyomo.Var) (expr : Expr) :
  ¬ Forall (λ s, is_Some (d !! s)) (atoms expr) →
  ∃ s, s ∈ atoms expr ∧ d !! s = None
       ∧ lookup_variables d (sorted_symbols expr) = Raise (KeyError s).
Proof.
  intros H. apply not_Forall_Exists in H; [|apply _].
  destruct (lookup_variables_Raise d (sorted_symbols expr)) as (s & Hs & Hd & Hr).
  { rewrite Exists_exists in *. destruct H as (s & Hs & Hd). exists s.
    split; [by apply elem_of_sorted_symbols|]. simpl in Hd.
    destruct (d !! s); [|done]. destruct Hd. by eexists. }
  exists s. split; [by apply elem_of_sorted_symbols|]. done.
Qed.

(** X2. A symbol without a solver variable is a [KeyError]: when some
    symbol of the expression is not bound, [_make_pyomo_poly] raises
    [KeyError] for an unbound symbol of the expression, before it looks at
    whether the expression is a polynomial. *)
Theorem make_pyomo_poly_unbound (self : PyomoSolver) (expr : Expr) :
  Exists (λ s, _pyomo_variables self !! s = None) (atoms expr) →
  ∃ s, s ∈ atoms expr ∧ _pyomo_variables self !! s = None
       ∧ _make_pyomo_poly self expr = Raise (KeyError s).
Proof.
  intros H.
  destruct (lookup_symbols_Raise (_pyomo_variables self) expr) as (s & Hs & Hd & Hr).
  { intros Hall. rewrite Exists_exists in H. destruct H as (s & Hs & Hd).
    rewrite Forall_forall in Hall. destruct (Hall s Hs) as [v Hv]. congruence. }
  exists s. split; [done|]. split; [done|].
  unfold _make_pyomo_poly. by rewrite Hr.
Qed.

Lemma make_pyomo_poly_not_polynomial (self : PyomoSolver) (expr : Expr) :
  Forall (λ s, is_Some (_pyomo_variables self !! s)) (atoms expr) →
  as_poly expr (sorted_symbols expr) = None →
  _make_pyomo_poly self expr = Raise (ValueError (not_a_polynomial expr)).
Proof.
  intros Hcover Hpoly. unfold _make_pyomo_poly.
  destruct (lookup_variables_Return (_pyomo_variables self) (sorted_symbols expr))
    as [variables [-> _]].
  { rewrite Forall_forall in *. intros s Hs. apply Hcover.
    by apply elem_of_sorted_symbols. }
  simpl. case_decide as Hlen.
  - apply length_zero_iff_nil, sorted_symbols_nil in Hlen.
    by destruct (as_poly_None_atoms _ _ Hpoly).
  - by rewrite Hpoly.
Qed.

(** X3. The three outcomes of [_make_pyomo_poly]: it returns, or it
    raises [KeyError] for an unbound symbol of the expression, or it
    raises [ValueError] for an expression that is not a polynomial. In
    particular [reduce] never meets an empty list of factors. *)
Theorem make_pyomo_poly_outcomes (self : PyomoSolver) (expr : Expr) :
  (∃ p, _make_pyomo_poly self expr = Return p)
  ∨ (∃ s, s ∈ atoms expr ∧ _pyomo_variables self !! s = None
          ∧ _make_pyomo_poly self expr = Raise (KeyError s))
  ∨ (as_poly expr (sorted_symbols expr) = None
     ∧ _make_pyomo_poly self expr = Raise (ValueError (not_a_polynomial expr))).
Proof.
  destruct (decide (Forall (λ s, is_Some (_pyomo_variables self !! s)) (atoms expr)))
    as [Hcover|Hmiss].
  - destruct (as_poly expr (sorted_symbols expr)) as [polynomial|] eqn:Hpoly.
    + left. destruct (make_pyomo_poly_shape self expr Hcover) as (p & Hp & _).
      * rewrite Hpoly. by eexists.
      * by exists p.
    + right. right. split; [done|]. by apply make_pyomo_poly_not_polynomial.
  - right. left.
    destruct (lookup_symbols_Raise _ expr Hmiss) as (s & Hs & Hd & Hr).
    exists s. split; [done|]. split; [done|].
    unfold _make_pyomo_poly. by rewrite Hr.
Qed.

(** What a returned translation tells about the input. *)
Lemma make_pyomo_poly_Return_inv (self : PyomoSolver) (expr : Expr) p :
  _make_pyomo_poly self expr = Return p →
  Forall (λ s, is_Some (_pyomo_variables self !! s)) (atoms expr)
  ∧ is_Some (as_poly expr (sorted_symbols expr)).
Proof.
  intros Hp.
  assert (Forall (λ s, is_Some (_pyomo_variables self !! s)) (atoms expr)) as Hcover.
  { destruct (decide (Forall (λ s, is_Some (_pyomo_variables self !! s)) (atoms expr)))
      as [H|H]; [done|].
    destruct (lookup_symbols_Raise _ expr H) as (s & _ & _ & Hr).
    unfold _make_pyomo_poly in Hp. by rewrite Hr in Hp. }
  split; [done|].
  destruct (as_poly expr (sorted_symbols expr)) eqn:E; [by eexists|].
  rewrite (make_pyomo_poly_not_polynomial self expr Hcover E) in Hp. done.
Qed.

Lemma make_pyomo_poly_Return_value (self : PyomoSolver) (expr : Expr) p env venv :
  _make_pyomo_poly self expr = Return p →
  agree (_pyomo_variables self) expr env venv →
  Pyomo.value venv p == evalf env expr.
Proof.
  intros Hp Hagree.
  destruct (make_pyomo_poly_Return_inv self expr p Hp) as [Hcover Hpoly].
  destruct (make_pyomo_poly_shape self expr Hcover Hpoly) as (p' & Hp' & Hshape).
  assert (p' = p) as -> by congruence.
  destruct Hshape as [[Hnil ->]|[_ (polynomial & variables & ts & Has & Hb & Hr & ->)]].
  - simpl. by rewrite (evalf_closed env expr Hnil).
  - by apply (realised_sum_value (_pyomo_variables self) expr polynomial variables).
Qed.

(** X4. [_make_pyomo_poly] returns exactly when every symbol of the
    expression is bound and the expression is a polynomial in its symbols;
    and what it returns has the value of the input at agreeing
    assignments. *)
Theorem make_pyomo_poly_Return_iff (self : PyomoSolver) (expr : Expr) :
  ((∃ p, _make_pyomo_poly self expr = Return p)
   ↔ Forall (λ s, is_Some (_pyomo_variables self !! s)) (atoms expr)
     ∧ is_Some (as_poly expr (sorted_symbols expr)))
  ∧ ∀ p env venv,
      _make_pyomo_poly self expr = Return p →
      agree (_pyomo_variables self) expr env venv →
      Pyomo.value venv p == evalf env expr.
Proof.
  split; [split|].
  - intros [p Hp]. by apply (make_pyomo_poly_Return_inv self expr p).
  - intros [Hcover Hpoly].
    destruct (make_pyomo_poly_shape self expr Hcover Hpoly) as (p & Hp & _).
    by exists p.
  - intros p env venv Hp Hagree.
    by apply (make_pyomo_poly_Return_value self expr p env venv).
Qed.

Lemma lookup_variables_ext (d1 d2 : gmap string Pyomo.Var) (symbols : list string) :
  Forall (λ s, d1 !! s = d2 !! s) symbols →
  lookup_variables d1 symbols = lookup_variables d2 symbols.
Proof.
  unfold lookup_variables. induction 1 as [|s l Hs _ IH]; [done|].
  simpl. by rewrite Hs, IH.
Qed.

(** X5. The translation reads the binding at the symbols of the
    expression only: two instances that bind these symbols alike give the
    same result, value or exception. *)
Theorem make_pyomo_poly_ext (self1 self2 : PyomoSolver) (expr : Expr) :
  Forall (λ s, _pyomo_variables self1 !! s = _pyomo_variables self2 !! s) (atoms expr) →
  _make_pyomo_poly self1 expr = _make_pyomo_poly self2 expr.
Proof.
  intros H. unfold _make_pyomo_poly.
  rewrite (lookup_variables_ext (_pyomo_variables self1) (_pyomo_variables self2)); [done|].
  rewrite Forall_forall in *. intros s Hs. apply H. by apply elem_of_sorted_symbols.
Qed.

Lemma sum_list_concat_replicate {A} (vs : list A) (f : A → Pyomo.Expr) (ns : list nat) :
  length vs = length ns →
  length (concat (zip_with (λ v n, replicate n (f v)) vs ns)) = sum_list ns.
Proof.
  revert ns. induction vs as [|v vs IH]; intros [|n ns] Hlen; simpl in *; try done.
  rewrite length_app, length_replicate, IH by lia. done.
Qed.

(** X6. A monomial is written out without exponentiation: the loop over
    the variables and exponents builds each variable as many times as its
    exponent, in the order of the variables (dropping the zero exponents
    first changes nothing), so the number of factors is the total degree
    of the monomial. *)
Theorem make_factors_degree (variables : list Pyomo.Var) (exponents : list nat) :
  length variables = length exponents →
  make_factors variables exponents
  = concat (zip_with (λ v n, replicate n (Pyomo.Ref v)) variables exponents)
  ∧ length (make_factors variables exponents) = sum_list exponents.
Proof.
  intros Hlen. rewrite make_factors_expanded. split; [done|].
  by apply (sum_list_concat_replicate variables Pyomo.Ref exponents).
Qed.

End MoreTranslationFacts.

(** * Further facts about the methods *)

Section MoreMethodFacts.
#[local] Open Scope Q_scope.

Lemma c_label_inj i j : c_label i = c_label j → i = j.
Proof.
  unfold c_label. intros H. apply (inj (String.app "c")) in H.
  by apply (inj pretty) in H.
Qed.

Lemma var_label_c_label i j : var_label i ≠ c_label j.
Proof. unfold var_label, c_label. intros H. discriminate H. Qed.

Lemma var_label_obj i : var_label i ≠ "obj".
Proof. unfold var_label. intros H. discriminate H. Qed.

Lemma c_label_obj i : c_label i ≠ "obj".
Proof. unfold c_label. intros H. discriminate H. Qed.

Lemma make_pyomo_poly_binding (self1 self2 : PyomoSolver) expr :
  _pyomo_variables self1 = _pyomo_variables self2 →
  _make_pyomo_poly self1 expr = _make_pyomo_poly self2 expr.
Proof. intros H. unfold _make_pyomo_poly. by rewrite H. Qed.

(** What an accepted constraint was, and what accepting it did. *)
Lemma add_constraint_Return_inv c self u self' :
  _add_constraint c self = Return (u, self') →
  ∃ r op p,
    relation_of c = Some r
    ∧ comparator_of (Sympy.rel_class r) = Some op
    ∧ _make_pyomo_poly self (Sympy.Sub (Sympy.rel_lhs r) (Sympy.rel_rhs r)) = Return p
    ∧ (∀ q, p ≠ Pyomo.Float q)
    ∧ self' = set_model
                (Pyomo.setattr (_model self) (c_label (S (_constraint_counter self)))
                   (Pyomo.Constraint (Pyomo.Cmp op p (Pyomo.Float 0))))
                (set_constraint_counter (S (_constraint_counter self)) self).
Proof.
  assert (∀ r, _add_constraint (Optimization.Bare (Optimization.IsRel r)) self
               = Return (u, self') →
          ∃ op p,
            comparator_of (Sympy.rel_class r) = Some op
            ∧ _make_pyomo_poly self (Sympy.Sub (Sympy.rel_lhs r) (Sympy.rel_rhs r))
              = Return p
            ∧ (∀ q, p ≠ Pyomo.Float q)
            ∧ self' = set_model
                (Pyomo.setattr (_model self) (c_label (S (_constraint_counter self)))
                   (Pyomo.Constraint (Pyomo.Cmp op p (Pyomo.Float 0))))
                (set_constraint_counter (S (_constraint_counter self)) self)) as Hrel.
  { intros r H. destruct u.
    unfold _add_constraint, _make_pyomo_relation, reading in H.
    unfold mbind, Method_bind, Result_bind in H.
    destruct (_make_pyomo_poly self (Sympy.Sub (Sympy.rel_lhs r) (Sympy.rel_rhs r)))
      as [p|e] eqn:Hp.
    - destruct (Sympy.rel_class r) eqn:Hc; simpl in H; try discriminate H;
        (destruct p as [q| | |]; simpl in H; [discriminate H| | |]);
        injection H as <-; eexists _, _; (split; [reflexivity|]);
        (split; [reflexivity|]); (split; [intros q; discriminate|]); reflexivity.
    - destruct (Sympy.rel_class r); simpl in H; discriminate H. }
  intros H. destruct c as [[r|repr]|[r|repr]| | |]; try discriminate H.
  - destruct (Hrel r H) as (op & p & ?). by exists r, op, p.
  - destruct (Hrel r H) as (op & p & ?). by exists r, op, p.
Qed.

(** X7. What an accepted constraint was and did: when [_add_constraint]
    returns, the object is (or wraps) a relation of class [LessThan],
    [GreaterThan] or [Equality]; the constraint counter went up by one,
    exactly one component was attached to the model, a constraint with the
    matching comparator and [0] on the right, named after the new counter;
    the plugin, the variable counter, the binding and the loaded values
    are as before. *)
Theorem add_constraint_Return_effect (c : Optimization.Object) (self self' : PyomoSolver) u :
  _add_constraint c self = Return (u, self') →
  ∃ r op p,
    relation_of c = Some r
    ∧ comparator_of (Sympy.rel_class r) = Some op
    ∧ self' = mkPyomoSolver (_solver self) (S (_constraint_counter self))
                (_var_counter self)
                (Pyomo.mkModel
                   (Pyomo.components (_model self)
                    ++ [(c_label (S (_constraint_counter self)),
                         Pyomo.Constraint (Pyomo.Cmp op p (Pyomo.Float 0)))])
                   (Pyomo.loaded (_model self)))
                (_pyomo_variables self).
Proof.
  intros H.
  destruct (add_constraint_Return_inv c self u self' H)
    as (r & op & p & Hr & Hop & _ & _ & ->).
  by exists r, op, p.
Qed.

(** The loop over the constraints. *)
Lemma for_each_add_constraint cs self u self' :
  for_each _add_constraint cs self = Return (u, self') →
  _solver self' = _solver self
  ∧ _pyomo_variables self' = _pyomo_variables self
  ∧ _var_counter self' = _var_counter self
  ∧ _constraint_counter self' = (_constraint_counter self + length cs)%nat
  ∧ Pyomo.loaded (_model self') = Pyomo.loaded (_model self)
  ∧ ∃ comps,
      Pyomo.components (_model self') = Pyomo.components (_model self) ++ comps
      ∧ fst <$> comps = c_label <$> seq (S (_constraint_counter self)) (length cs)
      ∧ Forall2 (λ c comp, ∃ r op p,
                   relation_of c = Some r
                   ∧ comparator_of (Sympy.rel_class r) = Some op
                   ∧ _make_pyomo_poly self
                       (Sympy.Sub (Sympy.rel_lhs r) (Sympy.rel_rhs r)) = Return p
                   ∧ snd comp = Pyomo.Constraint (Pyomo.Cmp op p (Pyomo.Float 0)))
                cs comps.
Proof.
  revert self. induction cs as [|c cs IH]; intros self; simpl.
  - intros [= <- <-]. repeat split; try done; try lia.
    exists []. by rewrite app_nil_r.
  - intros H. apply bind_Return in H as ([] & s1 & H1 & H).
    apply add_constraint_Return_inv in H1 as (r & op & p & Hr & Hop & Hp & _ & ->).
    apply IH in H as (Hs & Hv & Hvc & Hcc & Hl & comps & Hm & Hn & HF).
    simpl in *. repeat split; try done; try lia.
    eexists (_ :: comps). split; [by rewrite Hm, <- app_assoc|]. split.
    + rewrite fmap_cons. cbn [seq fmap list_fmap]. f_equal. exact Hn.
    + constructor.
      * by exists r, op, p.
      * eapply Forall2_impl; [exact HF|]. intros c' comp (r' & op' & p' & ? & ? & Hp' & ?).
        exists r', op', p'. repeat split; try done;
          rewrite <- Hp'; by apply make_pyomo_poly_binding.
Qed.

(** What a built model is made of. *)
Lemma build_model_Return_inv problem self u self1 :
  build_model problem self = Return (u, self1) →
  let vs := Optimization.variables problem in
  let cs := Optimization.constraints problem in
  _solver self1 = _solver self
  ∧ _var_counter self1 = length vs
  ∧ _constraint_counter self1 = length cs
  ∧ Pyomo.loaded (_model self1) = ∅
  ∧ (∀ n, n ∉ Optimization.name <$> vs → _pyomo_variables self1 !! n = None)
  ∧ (NoDup (Optimization.name <$> vs) →
     ∀ i v, vs !! i = Some v →
       _pyomo_variables self1 !! Optimization.name v
       = Some (Pyomo.Var_default (var_label (S i))))
  ∧ ∃ obj comps,
      _make_pyomo_poly self1 (Optimization.objective problem) = Return obj
      ∧ Pyomo.components (_model self1)
        = map (λ i, (var_label i, Pyomo.VarComponent (Pyomo.Var_default (var_label i))))
              (seq 1 (length vs))
          ++ [("obj", Pyomo.Objective obj
                        (sense_translation (Optimization.sense problem)))]
          ++ comps
      ∧ fst <$> comps = c_label <$> seq 1 (length cs)
      ∧ Forall2 (λ c comp, ∃ r op p,
                   relation_of c = Some r
                   ∧ comparator_of (Sympy.rel_class r) = Some op
                   ∧ _make_pyomo_poly self1
                       (Sympy.Sub (Sympy.rel_lhs r) (Sympy.rel_rhs r)) = Return p
                   ∧ snd comp = Pyomo.Constraint (Pyomo.Cmp op p (Pyomo.Float 0)))
                cs comps.
Proof.
  intros H vs cs. unfold build_model in H.
  apply bind_Return in H as ([] & s1 & [= <-] & H).
  apply bind_Return in H as ([] & s2 & [= <-] & H).
  apply bind_Return in H as ([] & s3 & [= <-] & H).
  apply bind_Return in H as (d & s4 & Hd & H).
  apply bind_Return in H as ([] & s5 & [= <-] & H).
  apply bind_Return in H as ([] & s6 & Hobj & H).
  destruct (bind_variables_spec vs ∅
              (set_model Pyomo.ConcreteModel_new
                 (set_var_counter 0 (set_constraint_counter 0 self))))
    as (d' & s4' & Hd' & Hc & Hm & Hother & Hbound).
  fold vs in Hd. rewrite Hd in Hd'. injection Hd' as <- <-.
  pose proof (frame_bind_variables _ _ _ _ _ Hd) as [Hs4 _].
  assert (_constraint_counter s4 = 0%nat ∧ Pyomo.loaded (_model s4) = ∅) as [Hcc4 Hl4].
  { clear -Hd. revert Hd. generalize (∅ : gmap string Pyomo.Var).
    assert (_constraint_counter
              (set_model Pyomo.ConcreteModel_new
                 (set_var_counter 0 (set_constraint_counter 0 self))) = 0%nat
            ∧ Pyomo.loaded (_model (set_model Pyomo.ConcreteModel_new
                 (set_var_counter 0 (set_constraint_counter 0 self)))) = ∅) as Hinit
      by done.
    revert Hinit.
    generalize (set_model Pyomo.ConcreteModel_new
                 (set_var_counter 0 (set_constraint_counter 0 self))).
    induction vs as [|v vs' IH]; intros s Hinit d0; simpl.
    - by intros [= <- <-].
    - unfold mbind, Method_bind. simpl. apply IH. simpl. done. }
  unfold _set_objective in Hobj.
  apply bind_Return in Hobj as (obj & s5' & Hread & Hupd).
  unfold reading in Hread.
  destruct (_make_pyomo_poly (set_pyomo_variables d s4) (Optimization.objective problem))
    as [obj'|] eqn:Hobj'; [|done].
  injection Hread as <- <-. injection Hupd as <-.
  apply for_each_add_constraint in H
    as (Hs & Hv & Hvc & Hcc & Hl & comps & Hmc & Hn & HF).
  simpl in *. split; [by rewrite Hs|]. split; [by rewrite Hvc, Hc|].
  split; [by rewrite Hcc, Hcc4|]. split; [by rewrite Hl|].
  split; [intros n Hn'; by rewrite Hv, (Hother n Hn'), lookup_empty|].
  split; [intros Hnd i v Hi; by rewrite Hv, (Hbound Hnd i v Hi)|].
  exists obj', comps. split; [|split; [|split]].
  - rewrite <- Hobj'. by apply make_pyomo_poly_binding.
  - rewrite Hmc, Hm. simpl. by rewrite <- app_assoc.
  - by rewrite Hn, Hcc4.
  - eapply Forall2_impl; [exact HF|]. intros c comp (r & op & p & ? & ? & Hp & ?).
    exists r, op, p. repeat split; try done;
      rewrite <- Hp; by apply make_pyomo_poly_binding.
Qed.

End MoreMethodFacts.

(** * Further facts about [solve] *)

Section MoreSolveFacts.
#[local] Open Scope Q_scope.

Variable opt_solve : Pyomo.OptSolver → Pyomo.ConcreteModel → Result Pyomo.SolverResults.

Lemma agree_all_agree d expr env venv : agree_all d env venv → agree d expr env venv.
Proof. intros H s v _ Hv. by apply H. Qed.

(** X8. The components of a built model, in declaration order: one
    variable [v1 .. vn] per problem variable, then the objective [obj],
    then one constraint [c1 .. ck] per constraint of the problem; no two
    components share a name. *)
Theorem build_model_component_names problem self u self1 :
  build_model problem self = Return (u, self1) →
  fst <$> Pyomo.components (_model self1)
  = (var_label <$> seq 1 (length (Optimization.variables problem)))
    ++ "obj" :: (c_label <$> seq 1 (length (Optimization.constraints problem)))
  ∧ NoDup (fst <$> Pyomo.components (_model self1)).
Proof.
  intros H. apply build_model_Return_inv in H
    as (_ & _ & _ & _ & _ & _ & obj & comps & _ & Hm & Hn & _).
  assert (fst <$> Pyomo.components (_model self1)
          = (var_label <$> seq 1 (length (Optimization.variables problem)))
            ++ "obj" :: (c_label <$> seq 1 (length (Optimization.constraints problem))))
    as Hnames.
  { rewrite Hm, !fmap_app, Hn. simpl. f_equal.
    rewrite <- list_fmap_compose. done. }
  split; [exact Hnames|]. rewrite Hnames.
  apply NoDup_app. split; [|split].
  - apply NoDup_fmap_2; [intros i j; apply var_label_inj | apply NoDup_seq].
  - intros x Hx Hx'. apply list_elem_of_fmap in Hx as (i & -> & _).
    apply elem_of_cons in Hx' as [Hobj|Hc].
    + by apply var_label_obj in Hobj.
    + apply list_elem_of_fmap in Hc as (j & Hij & _). by apply var_label_c_label in Hij.
  - apply NoDup_cons. split.
    + intros Hc. apply list_elem_of_fmap in Hc as (j & Hj & _).
      symmetry in Hj. by apply c_label_obj in Hj.
    + apply NoDup_fmap_2; [intros i j; apply c_label_inj | apply NoDup_seq].
Qed.

(** X9. The objective of a built model is the translation of the
    problem's objective, registered under the translated sense right after
    the variables, and it has the value of the problem's objective at
    agreeing assignments. *)
Theorem build_model_objective problem self u self1 :
  build_model problem self = Return (u, self1) →
  ∃ obj,
    Pyomo.components (_model self1) !! length (Optimization.variables problem)
    = Some ("obj", Pyomo.Objective obj (sense_translation (Optimization.sense problem)))
    ∧ ∀ env venv, agree_all (_pyomo_variables self1) env venv →
        Pyomo.value venv obj == Sympy.evalf env (Optimization.objective problem).
Proof.
  intros H. apply build_model_Return_inv in H
    as (_ & _ & _ & _ & _ & _ & obj & comps & Hobj & Hm & _ & _).
  exists obj. split.
  - rewrite Hm. rewrite lookup_app_r; rewrite length_map, length_seq; [|done].
    by rewrite Nat.sub_diag.
  - intros env venv Hagree.
    apply (make_pyomo_poly_Return_value self1 _ obj env venv Hobj).
    by apply agree_all_agree.
Qed.


(** X11. The solution is keyed back through the binding: when [solve]
    returns for a problem whose variables have distinct names, the value
    of the [i]-th variable is what the backend reports for the solver
    variable [v(i+1)] declared for it ([None] when the backend reports no
    value for it). *)
Theorem solve_values problem self m self' :
  solve opt_solve problem self = Return (m, self') →
  NoDup (Optimization.name <$> Optimization.variables problem) →
  ∃ self1 opt result,
    build_model problem self = Return ((), self1)
    ∧ _solver self = Some opt
    ∧ opt_solve opt (_model self1) = Return result
    ∧ ∀ i v, Optimization.variables problem !! i = Some v →
        m !! Optimization.name v
        = Some (Pyomo.Variable_values result !! var_label (S i)).
Proof.
  intros H Hnd.
  apply solve_Return in H as (self1 & opt & result & Hb & Hopt & Hr & _ & ->).
  exists self1, opt, result. repeat split; try done.
  intros i v Hi.
  apply build_model_Return_inv in Hb as (_ & _ & _ & _ & _ & Hbound & _).
  rewrite lookup_fmap, (Hbound Hnd i v Hi). done.
Qed.

Lemma bind_variables_state vs d s :
  ∃ d' m', ∀ t,
    _var_counter t = _var_counter s → _model t = _model s →
    bind_variables vs d t
    = Return (d', mkPyomoSolver (_solver t) (_constraint_counter t)
                    (_var_counter s + length vs) m' (_pyomo_variables t)).
Proof.
  revert d s. induction vs as [|v vs IH]; intros d s.
  - exists d, (_model s). intros t Hc Hm. simpl. unfold mret, Method_ret.
    rewrite Nat.add_0_r, <- Hc, <- Hm. by destruct t.
  - simpl.
    destruct (IH (<[Optimization.name v := Pyomo.Var_default ("v" +:+ pretty (S (_var_counter s)))]> d)
                 (set_model (Pyomo.setattr (_model s) ("v" +:+ pretty (S (_var_counter s)))
                               (Pyomo.VarComponent
                                  (Pyomo.Var_default ("v" +:+ pretty (S (_var_counter s))))))
                            (set_var_counter (S (_var_counter s)) s)))
      as (d' & m' & Hrest).
    exists d', m'. intros t Hc Hm.
    unfold mbind, Method_bind, _add_var. rewrite Hc, Hm.
    rewrite Hrest by done. simpl. do 3 f_equal. lia.
Qed.

Lemma build_model_solver problem self self' :
  _solver self = _solver self' →
  build_model problem self = build_model problem self'.
Proof.
  intros Hs. unfold build_model.
  do 3 (erewrite bind_Return_l; [|reflexivity]).
  symmetry. do 3 (erewrite bind_Return_l; [|reflexivity]). symmetry.
  destruct (bind_variables_state (Optimization.variables problem) ∅
              (set_model Pyomo.ConcreteModel_new
                 (set_var_counter 0 (set_constraint_counter 0 self))))
    as (d & m & Hbind).
  rewrite (bind_Return_l _ _ _ _ _ (Hbind _ eq_refl eq_refl)).
  rewrite (bind_Return_l _ _ _ _ _
             (Hbind (set_model Pyomo.ConcreteModel_new
                       (set_var_counter 0 (set_constraint_counter 0 self')))
                    eq_refl eq_refl)).
  do 1 (erewrite bind_Return_l; [|reflexivity]).
  symmetry. do 1 (erewrite bind_Return_l; [|reflexivity]). symmetry.
  simpl. by rewrite Hs.
Qed.

(** X12. Nothing crosses from one [solve] to the next: apart from the
    plugin, the state an instance is in (counters, model, binding) has no
    influence on [solve], neither on what it returns or raises nor on the
    state it leaves. *)
Theorem solve_fresh_state problem self self' :
  _solver self = _solver self' →
  solve opt_solve problem self = solve opt_solve problem self'.
Proof.
  intros Hs. unfold solve, mbind, Method_bind.
  by rewrite (build_model_solver problem self self' Hs).
Qed.

(** X13. Solving again gives the same: after a [solve] that returned, a
    second [solve] of the same problem on the same instance returns the
    same solution and leaves the same state. *)
Theorem solve_again problem self m self' :
  solve opt_solve problem self = Return (m, self') →
  solve opt_solve problem self' = Return (m, self').
Proof.
  intros H. rewrite <- H. unfold solve, mbind, Method_bind.
  rewrite (build_model_solver problem self' self); [done|].
  unfold solve in H.
  apply bind_Return in H as ([] & self1 & Hb & H).
  apply bind_Return in H as (result & self2 & Hr & H).
  apply run_solver_Return in Hr as (-> & _).
  apply build_model_Return in Hb as [Hs1 _].
  unfold read_solution in H. case_decide; [|done].
  injection H as _ <-. simpl. done.
Qed.

(** X14. A problem with a constraint that has no translation is never
    solved: when the constraints hold an ordered-set constraint, a strict
    inequality, an unequality or anything that is not a relation, [solve]
    raises, whatever the backend would answer. *)
Theorem solve_unsupported problem self c :
  c ∈ Optimization.constraints problem →
  unsupported c = true →
  ∃ e, solve opt_solve problem self = Raise e.
Proof.
  intros Hc Hun.
  destruct (solve opt_solve problem self) as [[m self']|e] eqn:Hs; [|by exists e].
  exfalso.
  apply solve_Return in Hs as (self1 & opt & result & Hb & _).
  apply build_model_Return_inv in Hb
    as (_ & _ & _ & _ & _ & _ & obj & comps & _ & _ & _ & HF).
  apply list_elem_of_lookup in Hc as [i Hi].
  destruct (Forall2_lookup_l _ _ _ i c HF Hi) as (comp & _ & r & op & p & Hr & Hop & _).
  destruct c as [[r'|]|[r'|]| | |]; simpl in Hr, Hun; try discriminate Hr;
    injection Hr as ->; by rewrite Hop in Hun.
Qed.

(** X15. An instance without a plugin fails late: the model is built
    first, and only then does the call of the plugin's [solve] raise
    [AttributeError]. *)
Theorem solve_without_plugin problem self self1 :
  build_model problem self = Return ((), self1) →
  _solver self = None →
  solve opt_solve problem self = Raise AttributeError.
Proof.
  intros Hb Hnone. unfold solve. rewrite (bind_Return_l _ _ _ _ _ Hb).
  apply bind_Raise_l. unfold run_solver.
  apply build_model_Return in Hb as [-> _]. by rewrite Hnone.
Qed.

(** X16. An exception of the backend comes out of [solve] unchanged. *)
Theorem solve_backend_exception problem self self1 opt e :
  build_model problem self = Return ((), self1) →
  _solver self = Some opt →
  opt_solve opt (_model self1) = Raise e →
  solve opt_solve problem self = Raise e.
Proof.
  intros Hb Hopt He. unfold solve. rewrite (bind_Return_l _ _ _ _ _ Hb).
  apply bind_Raise_l. unfold run_solver.
  apply build_model_Return in Hb as [-> _]. by rewrite Hopt, He.
Qed.

(** X17. When [solve] returns: exactly when the model can be built, the
    instance has a plugin, and the plugin's [solve] returns a result whose
    status is [optimal]. *)
Theorem solve_Return_iff problem self :
  (∃ m self', solve opt_solve problem self = Return (m, self'))
  ↔ ∃ self1 opt result,
      build_model problem self = Return ((), self1)
      ∧ _solver self = Some opt
      ∧ opt_solve opt (_model self1) = Return result
      ∧ Pyomo.Status result = Pyomo.optimal.
Proof.
  split.
  - intros (m & self' & H).
    apply solve_Return in H as (self1 & opt & result & Hb & Hopt & Hr & Hst & _).
    by exists self1, opt, result.
  - intros (self1 & opt & result & Hb & Hopt & Hr & Hst).
    unfold solve. rewrite (bind_Return_l _ _ _ _ _ Hb).
    assert (run_solver opt_solve self1 = Return (result, self1)) as Hrun.
    { unfold run_solver. apply build_model_Return in Hb as [-> _].
      by rewrite Hopt, Hr. }
    rewrite (bind_Return_l _ _ _ _ _ Hrun).
    unfold read_solution. rewrite decide_True by done.
    unfold mbind, Method_bind, update, variable_values. by eexists _, _.
Qed.

(** X18. The objective may only mention the problem's variables: when a
    symbol of the objective is not the name of a variable of the problem,
    [solve] raises [KeyError] for such a symbol. *)
Theorem solve_unbound_objective problem self :
  Exists (λ s, s ∉ Optimization.name <$> Optimization.variables problem)
         (Sympy.atoms (Optimization.objective problem)) →
  ∃ s, s ∈ Sympy.atoms (Optimization.objective problem)
       ∧ (s ∉ Optimization.name <$> Optimization.variables problem)
       ∧ solve opt_solve problem self = Raise (KeyError s).
Proof.
  intros Hstray.
  destruct (bind_variables_spec (Optimization.variables problem) ∅
              (set_model Pyomo.ConcreteModel_new
                 (set_var_counter 0 (set_constraint_counter 0 self))))
    as (d & s4 & Hd & _ & _ & Hother & _).
  destruct (lookup_symbols_Raise d (Optimization.objective problem))
    as (s & Hs & Hnone & Hr).
  { intros Hall. rewrite Exists_exists in Hstray. destruct Hstray as (s & Hs & Hout).
    rewrite Forall_forall in Hall. destruct (Hall s Hs) as [v Hv].
    by rewrite (Hother s Hout), lookup_empty in Hv. }
  exists s. split; [done|]. split.
  - intros Hin. apply bind_variables_dom in Hd.
    assert (s ∈ dom d) as Hdom.
    { rewrite Hd, dom_empty_L, (left_id_L ∅ (∪)). by apply elem_of_list_to_set. }
    apply elem_of_dom in Hdom as [v Hv]. congruence.
  - unfold solve. apply bind_Raise_l. unfold build_model.
    do 3 (erewrite bind_Return_l; [|reflexivity]).
    rewrite (bind_Return_l _ _ _ _ _ Hd).
    erewrite bind_Return_l; [|reflexivity].
    apply bind_Raise_l. unfold _set_objective. apply bind_Raise_l.
    unfold reading, _make_pyomo_poly. simpl. by rewrite Hr.
Qed.

End MoreSolveFacts.

(** * Further facts about solver resolution *)

Section MoreResolutionFacts.

Variable SolverFactory : string → string → option Pyomo.OptSolver.

Lemma solver_funcs_lookup name :
  _solver_funcs SolverFactory !! name
  = if decide (name = "gurobi")
    then Some (λ _, PyomoSolver_init SolverFactory "gurobi" "python")
    else if decide (name = "cbc")
         then Some (λ _, PyomoSolver_init SolverFactory "cbc" "asl")
         else None.
Proof.
  unfold _solver_funcs. rewrite lookup_insert. case_decide as Hg.
  - subst. by rewrite decide_True.
  - rewrite decide_False by done. rewrite lookup_insert. case_decide as Hc.
    + subst. by rewrite decide_True.
    + rewrite decide_False by done. apply lookup_empty.
Qed.

(** X19. Only the first name counts: [get_solver] called with names
    returns the instance built for the first name, with the plugin
    [SolverFactory] hands out for it (interface [python] for gurobi, [asl]
    for cbc), and raises [KeyError] when the first name is neither, even
    when a later name is known; [solver_order] is not looked at. *)
Theorem get_solver_first_name (solver_order : list string) (name : string)
    (rest : list string) :
  get_solver SolverFactory solver_order (name :: rest)
  = if decide (name = "gurobi")
    then Return (Some (mkPyomoSolver (SolverFactory "gurobi" "python") 0 0
                                     Pyomo.ConcreteModel_new ∅))
    else if decide (name = "cbc")
         then Return (Some (mkPyomoSolver (SolverFactory "cbc" "asl") 0 0
                                          Pyomo.ConcreteModel_new ∅))
         else Raise (KeyError name).
Proof.
  unfold get_solver. simpl. rewrite solver_funcs_lookup.
  repeat case_decide; reflexivity.
Qed.

(** X20. With the constructors of the module [get_solver] never raises
    [SolverNotAvailableError], and it returns [None] in one case only:
    when it is called without names while [solver_order] is bound to an
    empty sequence, so that the loop has nothing to try. *)
Theorem get_solver_None_iff (solver_order names : list string) :
  get_solver SolverFactory solver_order names ≠ Raise SolverNotAvailableError
  ∧ (get_solver SolverFactory solver_order names = Return None
     ↔ names = [] ∧ solver_order = []).
Proof.
  assert (∀ name rest,
            get_solver_from (_solver_funcs SolverFactory) (name :: rest)
            ≠ Raise SolverNotAvailableError
            ∧ get_solver_from (_solver_funcs SolverFactory) (name :: rest)
              ≠ Return None) as Hcons.
  { intros name rest. simpl. rewrite solver_funcs_lookup.
    repeat case_decide; split; discriminate. }
  unfold get_solver. destruct names as [|name rest]; simpl.
  - destruct solver_order as [|name rest].
    + split; [discriminate|]. by split.
    + destruct (Hcons name rest) as [Hr Hn]. split; [exact Hr|].
      split; [by intros H; destruct (Hn H) | by intros [_ [=]]].
  - destruct (Hcons name rest) as [Hr Hn]. split; [exact Hr|].
    split; [by intros H; destruct (Hn H) | by intros [[=] _]].
Qed.

End MoreResolutionFacts.

(** The names whose constructor raises [SolverNotAvailableError] are
    passed over. *)
Lemma get_solver_from_app funcs pre names :
  Forall (λ name, ∃ f, funcs !! name = Some f ∧ f () = Raise SolverNotAvailableError)
         pre →
  get_solver_from funcs (pre ++ names) = get_solver_from funcs names.
Proof.
  induction 1 as [|name pre (f & Hf & Hr) _ IH]; [done|].
  simpl. by rewrite Hf, Hr.
Qed.

(** X21. The loop of [get_solver] over any table of constructors: the
    names whose constructor raises [SolverNotAvailableError] are passed
    over, and the first other name decides: its instance is returned, its
    exception propagates, and a name that is not in the table is a
    [KeyError]. *)
Theorem get_solver_from_decides funcs (pre : list string) name (post : list string) :
  Forall (λ name, ∃ f, funcs !! name = Some f ∧ f () = Raise SolverNotAvailableError)
         pre →
  (∀ f, funcs !! name = Some f → f () ≠ Raise SolverNotAvailableError) →
  get_solver_from funcs (pre ++ name :: post)
  = match funcs !! name with
    | None => Raise (KeyError name)
    | Some f =>
        match f () with
        | Return s => Return (Some s)
        | Raise e => Raise e
        end
    end.
Proof.
  intros Hpre Hname. rewrite (get_solver_from_app funcs pre _ Hpre). simpl.
  destruct (funcs !! name) as [f|] eqn:Hf; [|done].
  specialize (Hname f eq_refl).
  destruct (f ()) as [s|e]; [done|]. by destruct e.
Qed.

(** X22. When the constructor of every name raises
    [SolverNotAvailableError], the loop of [get_solver] ends and [None] is
    returned: nothing is raised. *)
Theorem get_solver_from_all_unavailable funcs (names : list string) :
  Forall (λ name, ∃ f, funcs !! name = Some f ∧ f () = Raise SolverNotAvailableError)
         names →
  get_solver_from funcs names = Return None.
Proof.
  intros H. rewrite <- (app_nil_r names).
  by rewrite (get_solver_from_app funcs names [] H).
Qed.

(** * The further facts at concrete inputs *)

Lemma make_pyomo_poly_closed_witness :
  _make_pyomo_poly Example.no_plugin Example.closed1
  = Return (Pyomo.Float (Sympy.float Example.closed1)).
Proof. apply (make_pyomo_poly_closed Example.no_plugin Example.closed1). reflexivity. Defined.

Lemma make_pyomo_poly_unbound_witness :
  ∃ s, s ∈ Sympy.atoms Example.poly1
       ∧ _pyomo_variables Example.fresh_solver !! s = None
       ∧ _make_pyomo_poly Example.fresh_solver Example.poly1 = Raise (KeyError s).
Proof.
  apply (make_pyomo_poly_unbound Example.fresh_solver Example.poly1).
  apply Exists_cons_hd. reflexivity.
Defined.

Lemma make_pyomo_poly_ext_witness :
  _make_pyomo_poly Example.bound_solver Example.poly1
  = _make_pyomo_poly
      (mkPyomoSolver None 7 9 Pyomo.ConcreteModel_new
         (<["z" := Pyomo.Var_default "v3"]> Example.binding1))
      Example.poly1.
Proof.
  apply (make_pyomo_poly_ext Example.bound_solver).
  repeat constructor.
Defined.

Lemma make_factors_degree_witness :
  let variables := [Pyomo.Var_default "v1"; Pyomo.Var_default "v2"] in
  make_factors variables [2; 1]%nat
  = concat (zip_with (λ v n, replicate n (Pyomo.Ref v)) variables [2; 1]%nat)
  ∧ length (make_factors variables [2; 1]%nat) = sum_list [2; 1]%nat.
Proof.
  intros variables. apply (make_factors_degree variables [2; 1]%nat). reflexivity.
Defined.

Lemma add_constraint_Return_effect_witness :
  ∃ r op p self',
    _add_constraint
      (Optimization.RelConstraint
         (Optimization.IsRel (Sympy.mkRel Sympy.GreaterThan Example.x (Sympy.Num 3))))
      Example.bound_solver = Return ((), self')
    ∧ r = Sympy.mkRel Sympy.GreaterThan Example.x (Sympy.Num 3)
    ∧ op = Pyomo.GE
    ∧ _constraint_counter self' = 1%nat
    ∧ Pyomo.components (_model self')
      = [("c1", Pyomo.Constraint (Pyomo.Cmp op p (Pyomo.Float 0)))].
Proof.
  assert (∃ self', _add_constraint
            (Optimization.RelConstraint
               (Optimization.IsRel
                  (Sympy.mkRel Sympy.GreaterThan Example.x (Sympy.Num 3))))
            Example.bound_solver = Return ((), self'))
    as [self' H] by (eexists; vm_compute; reflexivity).
  destruct (add_constraint_Return_effect _ _ _ _ H) as (r & op & p & Hr & Hop & Hs).
  injection Hr as <-. injection Hop as <-.
  exists (Sympy.mkRel Sympy.GreaterThan Example.x (Sympy.Num 3)), Pyomo.GE, p, self'.
  split; [exact H|]. split; [done|]. split; [done|]. by rewrite Hs.
Defined.

Lemma build_model_component_names_witness :
  ∃ self1,
    build_model Example.contradictory Example.fresh_solver = Return ((), self1)
    ∧ fst <$> Pyomo.components (_model self1) = ["v1"; "obj"; "c1"; "c2"]
    ∧ NoDup (fst <$> Pyomo.components (_model self1)).
Proof.
  assert (∃ self1, build_model Example.contradictory Example.fresh_solver
                   = Return ((), self1))
    as [self1 Hb] by (eexists; vm_compute; reflexivity).
  exists self1. split; [exact Hb|].
  exact (build_model_component_names Example.contradictory Example.fresh_solver
           () self1 Hb).
Defined.

Lemma build_model_objective_witness :
  ∃ self1 obj,
    build_model Example.problem1 Example.fresh_solver = Return ((), self1)
    ∧ Pyomo.components (_model self1) !! 1%nat
      = Some ("obj", Pyomo.Objective obj Pyomo.minimize)
    ∧ ∀ env venv, agree_all (_pyomo_variables self1) env venv →
        (Pyomo.value venv obj == Sympy.evalf env Example.x)%Q.
Proof.
  assert (∃ self1, build_model Example.problem1 Example.fresh_solver
                   = Return ((), self1))
    as [self1 Hb] by (eexists; vm_compute; reflexivity).
  destruct (build_model_objective Example.problem1 Example.fresh_solver () self1 Hb)
    as (obj & Hobj & Hval).
  by exists self1, obj.
Defined.


Lemma solve_values_witness :
  ∃ m self' result,
    solve Example.optimal_at_3 Example.problem1 Example.fresh_solver = Return (m, self')
    ∧ Pyomo.Variable_values result = {["v1" := 3%Q]}
    ∧ m !! "x" = Some (Pyomo.Variable_values result !! "v1").
Proof.
  assert (∃ r, solve Example.optimal_at_3 Example.problem1 Example.fresh_solver = Return r)
    as [[m self'] H] by (eexists; vm_compute; reflexivity).
  destruct (solve_values Example.optimal_at_3 Example.problem1 Example.fresh_solver
              m self' H) as (self1 & opt & result & _ & _ & Hr & Hv).
  { apply NoDup_singleton. }
  exists m, self', result. split; [exact H|]. split.
  - unfold Example.optimal_at_3 in Hr. by injection Hr as <-.
  - exact (Hv 0%nat Example.x_var eq_refl).
Defined.

Lemma solve_fresh_state_witness :
  solve Example.optimal_at_3 Example.problem1 Example.bound_solver
  = solve Example.optimal_at_3 Example.problem1 Example.fresh_solver.
Proof.
  apply (solve_fresh_state Example.optimal_at_3 Example.problem1). reflexivity.
Defined.

Lemma solve_again_witness :
  ∃ m self',
    solve Example.optimal_at_3 Example.problem1 Example.fresh_solver = Return (m, self')
    ∧ solve Example.optimal_at_3 Example.problem1 self' = Return (m, self').
Proof.
  assert (∃ r, solve Example.optimal_at_3 Example.problem1 Example.fresh_solver = Return r)
    as [[m self'] H] by (eexists; vm_compute; reflexivity).
  exists m, self'. split; [exact H|].
  exact (solve_again Example.optimal_at_3 Example.problem1 Example.fresh_solver m self' H).
Defined.

Lemma solve_unsupported_witness :
  ∃ e, solve Example.optimal_at_3 Example.with_sos1 Example.fresh_solver = Raise e.
Proof.
  apply (solve_unsupported Example.optimal_at_3 Example.with_sos1 Example.fresh_solver
           (Optimization.SOS1Constraint [Example.x_var; Example.y_var])).
  - by left.
  - reflexivity.
Defined.

Lemma solve_without_plugin_witness :
  solve Example.optimal_at_3 Example.problem1 Example.no_plugin = Raise AttributeError.
Proof.
  assert (∃ self1, build_model Example.problem1 Example.no_plugin = Return ((), self1))
    as [self1 Hb] by (eexists; vm_compute; reflexivity).
  apply (solve_without_plugin Example.optimal_at_3 Example.problem1 Example.no_plugin
           self1 Hb).
  reflexivity.
Defined.

Lemma solve_backend_exception_witness :
  solve Example.crashes Example.problem1 Example.fresh_solver = Raise ApplicationError.
Proof.
  assert (∃ self1, build_model Example.problem1 Example.fresh_solver = Return ((), self1))
    as [self1 Hb] by (eexists; vm_compute; reflexivity).
  apply (solve_backend_exception Example.crashes Example.problem1 Example.fresh_solver
           self1 Example.cbc ApplicationError Hb); reflexivity.
Defined.

Lemma get_solver_from_decides_witness :
  get_solver_from Example.documented_funcs ["gurobi"; "cbc"]
  = Return (Some Example.fresh_solver).
Proof.
  apply (get_solver_from_decides Example.documented_funcs ["gurobi"] "cbc" []).
  - constructor; [|constructor]. eexists. split; reflexivity.
  - intros f Hf. vm_compute in Hf. injection Hf as <-. discriminate.
Defined.

Lemma get_solver_from_all_unavailable_witness :
  get_solver_from Example.unavailable_funcs ["gurobi"; "cbc"] = Return None.
Proof.
  apply (get_solver_from_all_unavailable Example.unavailable_funcs ["gurobi"; "cbc"]).
  repeat constructor; eexists; split; reflexivity.
Defined.

Lemma solve_unbound_objective_witness :
  ∃ s, s ∈ Sympy.atoms (Optimization.objective Example.stray)
       ∧ (s ∉ Optimization.name <$> Optimization.variables Example.stray)
       ∧ solve Example.optimal_at_3 Example.stray Example.fresh_solver
         = Raise (KeyError s).
Proof.
  apply (solve_unbound_objective Example.optimal_at_3 Example.stray Example.fresh_solver).
  apply Exists_cons_hd. simpl. rewrite list_elem_of_singleton. discriminate.
Defined.
